(** * The learning-agent workflow: stage nodes, routers and the run driver

    A shallow embedding of [backend/agents/graph_state.py],
    [backend/agents/langgraph_workflow.py] and the five stage agents of
    [backend/agents/langgraph_agents/], followed by the properties of the
    workflow specification that were checked against them.

    Conventions of the embedding:
    - the shared [AgentState] dictionary is a record; a stage agent mutates
      it in place and returns it, which is rendered as a state-and-exception
      monad [M] whose state survives a raised exception, so that the
      [try ... except] of every [__call__] sees the writes made before the
      exception;
    - everything a stage gets from outside (the language model's reply, fresh
      uuids, the clock) is read from a [World] value, one per stage
      invocation;
    - a Python exception is represented by the text [str(e)] that the
      handlers append to [errors]. *)

From stdpp Require Import base option list strings pretty gmap.
From Stdlib Require Import ZArith Lia Ascii.

Local Open Scope Z_scope.

(** ** Exceptions *)

Module Py.

Definition exn := string.

Inductive result (A : Type) : Type :=
| Ok (a : A)
| Raise (e : exn).
Global Arguments Ok {A} a.
Global Arguments Raise {A} e.

Global Instance result_ret : MRet result := λ A a, Ok a.
Global Instance result_bind : MBind result := λ A B f m,
  match m with
  | Ok a => f a
  | Raise e => Raise e
  end.

(** [d[k]] on a dictionary whose key [k] may be absent. *)
Definition KeyError (k : string) : exn := "'" +:+ k +:+ "'".

Definition subscript {A} (k : string) (v : option A) : result A :=
  match v with
  | Some a => Ok a
  | None => Raise (KeyError k)
  end.

(** [d.get(k, default)] *)
Definition get {A} (v : option A) (default : A) : A :=
  match v with
  | Some a => a
  | None => default
  end.

(** [x.get(...)] where [x] is [None]. *)
Definition NoneType_get : exn := "'NoneType' object has no attribute 'get'".

(** [sep.join(l)] *)
Fixpoint join (sep : string) (l : list string) : string :=
  match l with
  | [] => ""
  | [x] => x
  | x :: l' => x +:+ sep +:+ join sep l'
  end.

(** [for i, x in enumerate(l)] with a body that may raise: the first
    exception ends the loop. *)
Fixpoint for_each {A B} (f : nat → A → result B) (i : nat) (l : list A)
  : result (list B) :=
  match l with
  | [] => Ok []
  | x :: l' =>
      match f i x with
      | Raise e => Raise e
      | Ok y =>
          match for_each f (S i) l' with
          | Raise e => Raise e
          | Ok ys => Ok (y :: ys)
          end
      end
  end.

End Py.
Import Py.

(** ** Payloads carried by the state *)

(** The learner profile dictionary.  [run_workflow_sync] receives
    [asdict(profile)]; the keys the workflow reads are optional fields and
    [p_other_keys] names whatever else the dictionary holds, so that the empty
    dictionary is the one value for which [not learner_profile] holds. *)
Record Profile := {
  p_id : option string;
  p_name : option string;
  p_learning_style : option string;
  p_subject : option string;
  p_knowledge_level : option Z;
  p_weak_areas : option (list string);
  p_other_keys : list string
}.

Definition profile_is_empty (p : Profile) : bool :=
  match p_id p, p_name p, p_learning_style p, p_subject p,
        p_knowledge_level p, p_weak_areas p, p_other_keys p with
  | None, None, None, None, None, None, [] => true
  | _, _, _, _, _, _, _ => false
  end.

(** The JSON object asked of the language model by the profile stage. *)
Record Analysis := {
  an_learning_objectives : option (list string);
  an_recommended_difficulty : option Z;
  an_focus_areas : option (list string);
  an_learning_strategy : option string;
  an_estimated_timeline : option string;
  an_personalization_notes : option string
}.

(** One entry of ["resources"] in a learning path. *)
Record Resource := {
  r_id : option string;
  r_title : option string;
  r_type : option string;
  r_topic : option string;
  r_difficulty : option Z;
  r_duration_minutes : option Z;
  r_learning_objectives : option (list string);
  r_prerequisites : option (list string);
  r_description : option string
}.

Record Milestone := {
  ms_milestone : string;
  ms_after_resource : string;
  ms_assessment_type : string
}.

Record LearningPath := {
  lp_path_name : option string;
  lp_total_duration : option string;
  lp_resources : option (list Resource);
  lp_milestones : option (list Milestone)
}.

(** A content-generation task, built by [_generate_learning_tasks]. *)
Record Task := {
  t_task_id : string;
  t_resource_id : string;
  t_task_type : string;
  t_content_type : string;
  t_topic : string;
  t_title : string;
  t_difficulty : Z;
  t_learning_style : string;
  t_duration : Z;
  t_objectives : list string;
  t_description : string;
  t_priority : Z;
  t_status : string
}.

Record VisualExample := {
  ve_html_content : option string;
  ve_description : option string;
  ve_interaction_instructions : option string
}.

Record AudioEnhancements := {
  ae_text_to_speech : bool;
  ae_discussion_prompts : list string;
  ae_listening_exercises : list string
}.

(** A generated content record.  The keys of the model's JSON that no stage
    reads ([learning_style_adaptations], [interactive_elements], ...) are
    left out. *)
Record Content := {
  c_id : option string;
  c_title : option string;
  c_type : option string;
  c_content : option string;
  c_summary : option string;
  c_learning_objectives : option (list string);
  c_key_concepts : option (list string);
  c_difficulty_level : option Z;
  c_estimated_duration : option Z;
  c_created_at : option string;
  c_generated_by : option string;
  c_learner_id : option string;
  c_visual_example : option VisualExample;
  c_youtube_search_query : option string;
  c_visual_aids : option (list string);
  c_audio_enhancements : option AudioEnhancements;
  c_hands_on_activities : option (list string)
}.

Record Question := {
  q_id : option string;
  q_question : option string;
  q_options : option (list string);
  q_correct_answer : option string;
  q_explanation : option string;
  q_topic : option string;
  q_difficulty_level : option Z;
  q_learning_objective : option string;
  q_question_type : option string;
  q_resource_id : option string;
  q_created_at : option string;
  q_learner_id : option string
}.

Record AssessmentStrategy := {
  as_strategy_type : string;
  as_frequency : string;
  as_question_count_per_quiz : Z;
  as_passing_score : Z;
  as_retake_policy : string;
  as_feedback_type : string;
  as_track_time_spent : bool;
  as_track_attempts : bool;
  as_track_improvement : bool;
  as_learning_style : option string;
  as_difficulty_adaptation : bool;
  as_weak_area_focus : bool
}.

Record LearningPackage := {
  pk_package_id : option string;
  pk_learner_id : string;
  pk_created_at : string;
  pk_learning_profile : option Profile;
  pk_learning_objectives : list string;
  pk_content_resources : list Content;
  pk_quiz_questions : list Question;
  pk_assessment_strategy : option AssessmentStrategy;
  pk_visual_examples : list string;
  pk_youtube_videos : list string;
  pk_learning_style : string;
  pk_difficulty_level : Z;
  pk_weak_areas : list string;
  pk_agents_involved : list string;
  pk_total_processing_time : string;
  pk_message_count : nat;
  pk_error_count : nat
}.

Record ProgressMilestone := {
  pm_milestone_id : string;
  pm_resource_id : string;
  pm_title : string;
  pm_required_score : Z;
  pm_attempts_allowed : Z
}.

Record ProgressTracking := {
  pt_tracking_id : string;
  pt_milestones : list ProgressMilestone;
  pt_difficulty_adjustment : bool;
  pt_content_recommendation : bool;
  pt_weak_area_focus : bool;
  pt_real_time_progress : bool;
  pt_detailed_analytics : bool;
  pt_learning_insights : bool
}.

(** The ["content"] of an inter-agent message. *)
Inductive MessageContent :=
| AnalysisContent (a : Analysis)
| TaskContent (t : Task)
| GeneratedCount (generated_count : nat)
| AssessmentSummary (quiz_questions_count : nat) (strategy : AssessmentStrategy)
| WorkflowComplete (package : LearningPackage) (completion_time : string)
    (total_resources total_assessments : nat).

Record Message := {
  m_sender : string;
  m_receiver : string;
  m_type : string;
  m_content : MessageContent;
  m_timestamp : string
}.

(** ** The shared state

    [AgentState] of [graph_state.py], with the three keys the orchestrator
    adds on completion ([learning_package], [progress_tracking],
    [workflow_status]) as optional fields.  Payloads that no stage inspects
    ([visual_examples], [youtube_videos], [pretest_results], [quiz_results])
    are kept as text. *)
Record AgentState := {
  learner_id : string;
  learner_profile : option Profile;
  learning_path_id : option string;
  current_resources : list Resource;
  learning_objectives : list string;
  topic : string;
  subject : string;
  difficulty_level : Z;
  learning_style : string;
  weak_areas : list string;
  generated_content : list Content;
  quiz_questions : list Question;
  visual_examples : list string;
  youtube_videos : list string;
  pretest_results : option string;
  quiz_results : list string;
  progress_data : gmap string AssessmentStrategy;
  messages : list Message;
  current_agent : string;
  workflow_step : string;
  errors : list string;
  retry_count : Z;
  should_continue : bool;
  next_action : string;
  timestamp : string;
  session_id : string;
  learning_package : option LearningPackage;
  progress_tracking : option ProgressTracking;
  workflow_status : option string
}.

(** [state[key] = v]: one setter per key that some stage assigns. *)
Definition set_learning_path_id (v : option string) (st : AgentState) : AgentState :=
  {| learner_id := learner_id st; learner_profile := learner_profile st;
     learning_path_id := v; current_resources := current_resources st;
     learning_objectives := learning_objectives st; topic := topic st; subject
     := subject st; difficulty_level := difficulty_level st; learning_style :=
     learning_style st; weak_areas := weak_areas st; generated_content :=
     generated_content st; quiz_questions := quiz_questions st; visual_examples
     := visual_examples st; youtube_videos := youtube_videos st;
     pretest_results := pretest_results st; quiz_results := quiz_results st;
     progress_data := progress_data st; messages := messages st; current_agent
     := current_agent st; workflow_step := workflow_step st; errors := errors
     st; retry_count := retry_count st; should_continue := should_continue st;
     next_action := next_action st; timestamp := timestamp st; session_id :=
     session_id st; learning_package := learning_package st; progress_tracking
     := progress_tracking st; workflow_status := workflow_status st |}.

Definition set_current_resources (v : list Resource) (st : AgentState) : AgentState :=
  {| learner_id := learner_id st; learner_profile := learner_profile st;
     learning_path_id := learning_path_id st; current_resources := v;
     learning_objectives := learning_objectives st; topic := topic st; subject
     := subject st; difficulty_level := difficulty_level st; learning_style :=
     learning_style st; weak_areas := weak_areas st; generated_content :=
     generated_content st; quiz_questions := quiz_questions st; visual_examples
     := visual_examples st; youtube_videos := youtube_videos st;
     pretest_results := pretest_results st; quiz_results := quiz_results st;
     progress_data := progress_data st; messages := messages st; current_agent
     := current_agent st; workflow_step := workflow_step st; errors := errors
     st; retry_count := retry_count st; should_continue := should_continue st;
     next_action := next_action st; timestamp := timestamp st; session_id :=
     session_id st; learning_package := learning_package st; progress_tracking
     := progress_tracking st; workflow_status := workflow_status st |}.

Definition set_learning_objectives (v : list string) (st : AgentState) : AgentState :=
  {| learner_id := learner_id st; learner_profile := learner_profile st;
     learning_path_id := learning_path_id st; current_resources :=
     current_resources st; learning_objectives := v; topic := topic st; subject
     := subject st; difficulty_level := difficulty_level st; learning_style :=
     learning_style st; weak_areas := weak_areas st; generated_content :=
     generated_content st; quiz_questions := quiz_questions st; visual_examples
     := visual_examples st; youtube_videos := youtube_videos st;
     pretest_results := pretest_results st; quiz_results := quiz_results st;
     progress_data := progress_data st; messages := messages st; current_agent
     := current_agent st; workflow_step := workflow_step st; errors := errors
     st; retry_count := retry_count st; should_continue := should_continue st;
     next_action := next_action st; timestamp := timestamp st; session_id :=
     session_id st; learning_package := learning_package st; progress_tracking
     := progress_tracking st; workflow_status := workflow_status st |}.

Definition set_difficulty_level (v : Z) (st : AgentState) : AgentState :=
  {| learner_id := learner_id st; learner_profile := learner_profile st;
     learning_path_id := learning_path_id st; current_resources :=
     current_resources st; learning_objectives := learning_objectives st; topic
     := topic st; subject := subject st; difficulty_level := v; learning_style
     := learning_style st; weak_areas := weak_areas st; generated_content :=
     generated_content st; quiz_questions := quiz_questions st; visual_examples
     := visual_examples st; youtube_videos := youtube_videos st;
     pretest_results := pretest_results st; quiz_results := quiz_results st;
     progress_data := progress_data st; messages := messages st; current_agent
     := current_agent st; workflow_step := workflow_step st; errors := errors
     st; retry_count := retry_count st; should_continue := should_continue st;
     next_action := next_action st; timestamp := timestamp st; session_id :=
     session_id st; learning_package := learning_package st; progress_tracking
     := progress_tracking st; workflow_status := workflow_status st |}.

Definition set_weak_areas (v : list string) (st : AgentState) : AgentState :=
  {| learner_id := learner_id st; learner_profile := learner_profile st;
     learning_path_id := learning_path_id st; current_resources :=
     current_resources st; learning_objectives := learning_objectives st; topic
     := topic st; subject := subject st; difficulty_level := difficulty_level
     st; learning_style := learning_style st; weak_areas := v;
     generated_content := generated_content st; quiz_questions :=
     quiz_questions st; visual_examples := visual_examples st; youtube_videos
     := youtube_videos st; pretest_results := pretest_results st; quiz_results
     := quiz_results st; progress_data := progress_data st; messages :=
     messages st; current_agent := current_agent st; workflow_step :=
     workflow_step st; errors := errors st; retry_count := retry_count st;
     should_continue := should_continue st; next_action := next_action st;
     timestamp := timestamp st; session_id := session_id st; learning_package
     := learning_package st; progress_tracking := progress_tracking st;
     workflow_status := workflow_status st |}.

Definition set_generated_content (v : list Content) (st : AgentState) : AgentState :=
  {| learner_id := learner_id st; learner_profile := learner_profile st;
     learning_path_id := learning_path_id st; current_resources :=
     current_resources st; learning_objectives := learning_objectives st; topic
     := topic st; subject := subject st; difficulty_level := difficulty_level
     st; learning_style := learning_style st; weak_areas := weak_areas st;
     generated_content := v; quiz_questions := quiz_questions st;
     visual_examples := visual_examples st; youtube_videos := youtube_videos
     st; pretest_results := pretest_results st; quiz_results := quiz_results
     st; progress_data := progress_data st; messages := messages st;
     current_agent := current_agent st; workflow_step := workflow_step st;
     errors := errors st; retry_count := retry_count st; should_continue :=
     should_continue st; next_action := next_action st; timestamp := timestamp
     st; session_id := session_id st; learning_package := learning_package st;
     progress_tracking := progress_tracking st; workflow_status :=
     workflow_status st |}.

Definition set_quiz_questions (v : list Question) (st : AgentState) : AgentState :=
  {| learner_id := learner_id st; learner_profile := learner_profile st;
     learning_path_id := learning_path_id st; current_resources :=
     current_resources st; learning_objectives := learning_objectives st; topic
     := topic st; subject := subject st; difficulty_level := difficulty_level
     st; learning_style := learning_style st; weak_areas := weak_areas st;
     generated_content := generated_content st; quiz_questions := v;
     visual_examples := visual_examples st; youtube_videos := youtube_videos
     st; pretest_results := pretest_results st; quiz_results := quiz_results
     st; progress_data := progress_data st; messages := messages st;
     current_agent := current_agent st; workflow_step := workflow_step st;
     errors := errors st; retry_count := retry_count st; should_continue :=
     should_continue st; next_action := next_action st; timestamp := timestamp
     st; session_id := session_id st; learning_package := learning_package st;
     progress_tracking := progress_tracking st; workflow_status :=
     workflow_status st |}.

Definition set_progress_data (v : gmap string AssessmentStrategy) (st : AgentState) : AgentState :=
  {| learner_id := learner_id st; learner_profile := learner_profile st;
     learning_path_id := learning_path_id st; current_resources :=
     current_resources st; learning_objectives := learning_objectives st; topic
     := topic st; subject := subject st; difficulty_level := difficulty_level
     st; learning_style := learning_style st; weak_areas := weak_areas st;
     generated_content := generated_content st; quiz_questions :=
     quiz_questions st; visual_examples := visual_examples st; youtube_videos
     := youtube_videos st; pretest_results := pretest_results st; quiz_results
     := quiz_results st; progress_data := v; messages := messages st;
     current_agent := current_agent st; workflow_step := workflow_step st;
     errors := errors st; retry_count := retry_count st; should_continue :=
     should_continue st; next_action := next_action st; timestamp := timestamp
     st; session_id := session_id st; learning_package := learning_package st;
     progress_tracking := progress_tracking st; workflow_status :=
     workflow_status st |}.

Definition set_messages (v : list Message) (st : AgentState) : AgentState :=
  {| learner_id := learner_id st; learner_profile := learner_profile st;
     learning_path_id := learning_path_id st; current_resources :=
     current_resources st; learning_objectives := learning_objectives st; topic
     := topic st; subject := subject st; difficulty_level := difficulty_level
     st; learning_style := learning_style st; weak_areas := weak_areas st;
     generated_content := generated_content st; quiz_questions :=
     quiz_questions st; visual_examples := visual_examples st; youtube_videos
     := youtube_videos st; pretest_results := pretest_results st; quiz_results
     := quiz_results st; progress_data := progress_data st; messages := v;
     current_agent := current_agent st; workflow_step := workflow_step st;
     errors := errors st; retry_count := retry_count st; should_continue :=
     should_continue st; next_action := next_action st; timestamp := timestamp
     st; session_id := session_id st; learning_package := learning_package st;
     progress_tracking := progress_tracking st; workflow_status :=
     workflow_status st |}.

Definition set_current_agent (v : string) (st : AgentState) : AgentState :=
  {| learner_id := learner_id st; learner_profile := learner_profile st;
     learning_path_id := learning_path_id st; current_resources :=
     current_resources st; learning_objectives := learning_objectives st; topic
     := topic st; subject := subject st; difficulty_level := difficulty_level
     st; learning_style := learning_style st; weak_areas := weak_areas st;
     generated_content := generated_content st; quiz_questions :=
     quiz_questions st; visual_examples := visual_examples st; youtube_videos
     := youtube_videos st; pretest_results := pretest_results st; quiz_results
     := quiz_results st; progress_data := progress_data st; messages :=
     messages st; current_agent := v; workflow_step := workflow_step st; errors
     := errors st; retry_count := retry_count st; should_continue :=
     should_continue st; next_action := next_action st; timestamp := timestamp
     st; session_id := session_id st; learning_package := learning_package st;
     progress_tracking := progress_tracking st; workflow_status :=
     workflow_status st |}.

Definition set_workflow_step (v : string) (st : AgentState) : AgentState :=
  {| learner_id := learner_id st; learner_profile := learner_profile st;
     learning_path_id := learning_path_id st; current_resources :=
     current_resources st; learning_objectives := learning_objectives st; topic
     := topic st; subject := subject st; difficulty_level := difficulty_level
     st; learning_style := learning_style st; weak_areas := weak_areas st;
     generated_content := generated_content st; quiz_questions :=
     quiz_questions st; visual_examples := visual_examples st; youtube_videos
     := youtube_videos st; pretest_results := pretest_results st; quiz_results
     := quiz_results st; progress_data := progress_data st; messages :=
     messages st; current_agent := current_agent st; workflow_step := v; errors
     := errors st; retry_count := retry_count st; should_continue :=
     should_continue st; next_action := next_action st; timestamp := timestamp
     st; session_id := session_id st; learning_package := learning_package st;
     progress_tracking := progress_tracking st; workflow_status :=
     workflow_status st |}.

Definition set_errors (v : list string) (st : AgentState) : AgentState :=
  {| learner_id := learner_id st; learner_profile := learner_profile st;
     learning_path_id := learning_path_id st; current_resources :=
     current_resources st; learning_objectives := learning_objectives st; topic
     := topic st; subject := subject st; difficulty_level := difficulty_level
     st; learning_style := learning_style st; weak_areas := weak_areas st;
     generated_content := generated_content st; quiz_questions :=
     quiz_questions st; visual_examples := visual_examples st; youtube_videos
     := youtube_videos st; pretest_results := pretest_results st; quiz_results
     := quiz_results st; progress_data := progress_data st; messages :=
     messages st; current_agent := current_agent st; workflow_step :=
     workflow_step st; errors := v; retry_count := retry_count st;
     should_continue := should_continue st; next_action := next_action st;
     timestamp := timestamp st; session_id := session_id st; learning_package
     := learning_package st; progress_tracking := progress_tracking st;
     workflow_status := workflow_status st |}.

Definition set_retry_count (v : Z) (st : AgentState) : AgentState :=
  {| learner_id := learner_id st; learner_profile := learner_profile st;
     learning_path_id := learning_path_id st; current_resources :=
     current_resources st; learning_objectives := learning_objectives st; topic
     := topic st; subject := subject st; difficulty_level := difficulty_level
     st; learning_style := learning_style st; weak_areas := weak_areas st;
     generated_content := generated_content st; quiz_questions :=
     quiz_questions st; visual_examples := visual_examples st; youtube_videos
     := youtube_videos st; pretest_results := pretest_results st; quiz_results
     := quiz_results st; progress_data := progress_data st; messages :=
     messages st; current_agent := current_agent st; workflow_step :=
     workflow_step st; errors := errors st; retry_count := v; should_continue
     := should_continue st; next_action := next_action st; timestamp :=
     timestamp st; session_id := session_id st; learning_package :=
     learning_package st; progress_tracking := progress_tracking st;
     workflow_status := workflow_status st |}.

Definition set_should_continue (v : bool) (st : AgentState) : AgentState :=
  {| learner_id := learner_id st; learner_profile := learner_profile st;
     learning_path_id := learning_path_id st; current_resources :=
     current_resources st; learning_objectives := learning_objectives st; topic
     := topic st; subject := subject st; difficulty_level := difficulty_level
     st; learning_style := learning_style st; weak_areas := weak_areas st;
     generated_content := generated_content st; quiz_questions :=
     quiz_questions st; visual_examples := visual_examples st; youtube_videos
     := youtube_videos st; pretest_results := pretest_results st; quiz_results
     := quiz_results st; progress_data := progress_data st; messages :=
     messages st; current_agent := current_agent st; workflow_step :=
     workflow_step st; errors := errors st; retry_count := retry_count st;
     should_continue := v; next_action := next_action st; timestamp :=
     timestamp st; session_id := session_id st; learning_package :=
     learning_package st; progress_tracking := progress_tracking st;
     workflow_status := workflow_status st |}.

Definition set_next_action (v : string) (st : AgentState) : AgentState :=
  {| learner_id := learner_id st; learner_profile := learner_profile st;
     learning_path_id := learning_path_id st; current_resources :=
     current_resources st; learning_objectives := learning_objectives st; topic
     := topic st; subject := subject st; difficulty_level := difficulty_level
     st; learning_style := learning_style st; weak_areas := weak_areas st;
     generated_content := generated_content st; quiz_questions :=
     quiz_questions st; visual_examples := visual_examples st; youtube_videos
     := youtube_videos st; pretest_results := pretest_results st; quiz_results
     := quiz_results st; progress_data := progress_data st; messages :=
     messages st; current_agent := current_agent st; workflow_step :=
     workflow_step st; errors := errors st; retry_count := retry_count st;
     should_continue := should_continue st; next_action := v; timestamp :=
     timestamp st; session_id := session_id st; learning_package :=
     learning_package st; progress_tracking := progress_tracking st;
     workflow_status := workflow_status st |}.

Definition set_learning_package (v : option LearningPackage) (st : AgentState) : AgentState :=
  {| learner_id := learner_id st; learner_profile := learner_profile st;
     learning_path_id := learning_path_id st; current_resources :=
     current_resources st; learning_objectives := learning_objectives st; topic
     := topic st; subject := subject st; difficulty_level := difficulty_level
     st; learning_style := learning_style st; weak_areas := weak_areas st;
     generated_content := generated_content st; quiz_questions :=
     quiz_questions st; visual_examples := visual_examples st; youtube_videos
     := youtube_videos st; pretest_results := pretest_results st; quiz_results
     := quiz_results st; progress_data := progress_data st; messages :=
     messages st; current_agent := current_agent st; workflow_step :=
     workflow_step st; errors := errors st; retry_count := retry_count st;
     should_continue := should_continue st; next_action := next_action st;
     timestamp := timestamp st; session_id := session_id st; learning_package
     := v; progress_tracking := progress_tracking st; workflow_status :=
     workflow_status st |}.

Definition set_progress_tracking (v : option ProgressTracking) (st : AgentState) : AgentState :=
  {| learner_id := learner_id st; learner_profile := learner_profile st;
     learning_path_id := learning_path_id st; current_resources :=
     current_resources st; learning_objectives := learning_objectives st; topic
     := topic st; subject := subject st; difficulty_level := difficulty_level
     st; learning_style := learning_style st; weak_areas := weak_areas st;
     generated_content := generated_content st; quiz_questions :=
     quiz_questions st; visual_examples := visual_examples st; youtube_videos
     := youtube_videos st; pretest_results := pretest_results st; quiz_results
     := quiz_results st; progress_data := progress_data st; messages :=
     messages st; current_agent := current_agent st; workflow_step :=
     workflow_step st; errors := errors st; retry_count := retry_count st;
     should_continue := should_continue st; next_action := next_action st;
     timestamp := timestamp st; session_id := session_id st; learning_package
     := learning_package st; progress_tracking := v; workflow_status :=
     workflow_status st |}.

Definition set_workflow_status (v : option string) (st : AgentState) : AgentState :=
  {| learner_id := learner_id st; learner_profile := learner_profile st;
     learning_path_id := learning_path_id st; current_resources :=
     current_resources st; learning_objectives := learning_objectives st; topic
     := topic st; subject := subject st; difficulty_level := difficulty_level
     st; learning_style := learning_style st; weak_areas := weak_areas st;
     generated_content := generated_content st; quiz_questions :=
     quiz_questions st; visual_examples := visual_examples st; youtube_videos
     := youtube_videos st; pretest_results := pretest_results st; quiz_results
     := quiz_results st; progress_data := progress_data st; messages :=
     messages st; current_agent := current_agent st; workflow_step :=
     workflow_step st; errors := errors st; retry_count := retry_count st;
     should_continue := should_continue st; next_action := next_action st;
     timestamp := timestamp st; session_id := session_id st; learning_package
     := learning_package st; progress_tracking := progress_tracking st;
     workflow_status := v |}.

(** ** The world outside a stage *)

(** What one call of [self.llm.invoke] followed by the extraction of the JSON
    text can give: the call raises; or the reply holds no JSON that
    [json.loads] accepts; or it parses to a JSON value. *)
Inductive llm_reply (A : Type) : Type :=
| LLMRaises (e : exn)
| LLMUnparseable
| LLMJson (a : A).
Global Arguments LLMRaises {A} e.
Global Arguments LLMUnparseable {A}.
Global Arguments LLMJson {A} a.

(** The environment of one stage invocation.  Calls made inside a loop are
    indexed by the position in the loop; [uuid4] and [utcnow] are indexed by
    the place of the call and up to two loop positions. *)
Record World := {
  llm_profile : llm_reply Analysis;
  llm_path : llm_reply LearningPath;
  llm_content : nat → llm_reply Content;
  llm_visual : nat → llm_reply VisualExample;
  llm_quiz : nat → llm_reply (list Question);
  uuid4 : string → nat → nat → string;
  utcnow : string → nat → nat → string;
  (** [str((utcnow() - fromisoformat(ts)).total_seconds())] *)
  elapsed_since : string → result string
}.

(** ** Stage code: a state that survives exceptions *)

Definition M (A : Type) : Type := AgentState → result A * AgentState.

Global Instance M_ret : MRet M := λ A a st, (Ok a, st).
Global Instance M_bind : MBind M := λ A B f m st,
  match m st with
  | (Ok a, st') => f a st'
  | (Raise e, st') => (Raise e, st')
  end.

Definition lift {A} (r : result A) : M A := λ st, (r, st).
Definition gets {A} (f : AgentState → A) : M A := λ st, (Ok (f st), st).
Definition modify (f : AgentState → AgentState) : M unit := λ st, (Ok (), f st).

(** [try: body / except Exception as e: handler(e)], then [return state]. *)
Definition try_except (body : M unit) (handler : exn → AgentState → AgentState)
  : AgentState → AgentState := λ st,
  match body st with
  | (Ok _, st') => st'
  | (Raise e, st') => handler e st'
  end.

(** [state["errors"].append(msg)] and [state["messages"].append(m)] *)
Definition errors_append (msg : string) (st : AgentState) : AgentState :=
  set_errors (errors st ++ [msg]) st.
Definition messages_append (m : Message) (st : AgentState) : AgentState :=
  set_messages (messages st ++ [m]) st.

(** Truth value of a list. *)
Definition nonempty {A} (l : list A) : bool :=
  match l with
  | [] => false
  | _ :: _ => true
  end.

(** ** Profile analysis *)

Module ProfileAnalysisAgent.

Definition agent_name : string := "ProfileAnalysisAgent".

(** The fallback analysis returned when the reply cannot be parsed. *)
Definition fallback_analysis (profile : Profile) : Analysis :=
  {| an_learning_objectives := Some
       [ "Master fundamentals of " +:+ get (p_subject profile) "the subject";
         "Improve understanding in weak areas";
         "Build confidence through "
           +:+ get (p_learning_style profile) "adaptive" +:+ " learning" ];
     an_recommended_difficulty :=
       Some (Z.min 5 (get (p_knowledge_level profile) 1 + 1));
     an_focus_areas := Some (take 3 (get (p_weak_areas profile) []));
     an_learning_strategy := Some
       ("Personalized " +:+ get (p_learning_style profile) "adaptive"
          +:+ " approach");
     an_estimated_timeline := Some "4-6 weeks";
     an_personalization_notes :=
       Some "AI-generated personalized recommendations" |}.

(** [self.llm.invoke] is called outside the inner [try]: an exception of
    the call leaves the function, a reply that does not parse gives the
    fallback. *)
Definition _analyze_learning_profile (w : World) (profile : Profile)
  : result Analysis :=
  match llm_profile w with
  | LLMRaises e => Raise e
  | LLMJson a => Ok a
  | LLMUnparseable => Ok (fallback_analysis profile)
  end.

Definition no_profile (st : AgentState) : AgentState :=
  set_should_continue false (errors_append "No learner profile provided" st).

Definition complete (w : World) (analysis_result : Analysis) : M unit :=
  modify (messages_append
    {| m_sender := agent_name;
       m_receiver := "PathPlannerAgent";
       m_type := "profile_analysis_complete";
       m_content := AnalysisContent analysis_result;
       m_timestamp := utcnow w "message" 0 0 |});;
  modify (set_current_agent "PathPlannerAgent");;
  modify (set_workflow_step "path_planning").

Definition body (w : World) : M unit :=
  learner_profile ← gets learner_profile;
  match learner_profile with
  | None => modify no_profile
  | Some profile =>
      if profile_is_empty profile then modify no_profile
      else
        analysis_result ← lift (_analyze_learning_profile w profile);
        objectives ← lift (subscript "learning_objectives"
                             (an_learning_objectives analysis_result));
        modify (set_learning_objectives objectives);;
        difficulty ← lift (subscript "recommended_difficulty"
                             (an_recommended_difficulty analysis_result));
        modify (set_difficulty_level difficulty);;
        focus ← lift (subscript "focus_areas"
                        (an_focus_areas analysis_result));
        modify (set_weak_areas focus);;
        complete w analysis_result
  end.

Definition handler (e : exn) (st : AgentState) : AgentState :=
  let st := errors_append ("Profile analysis failed: " +:+ e) st in
  let st := set_retry_count (retry_count st + 1) st in
  if retry_count st <? 3 then set_should_continue true st
  else set_should_continue false st.

Definition __call__ (w : World) : AgentState → AgentState :=
  try_except (body w) handler.

End ProfileAnalysisAgent.

(** ** Path planning *)

Module PathPlannerAgent.

Definition agent_name : string := "PathPlannerAgent".

(** Scans the log newest first. *)
Definition _get_latest_message (st : AgentState) (message_type : string)
  : option Message :=
  List.find (λ m, String.eqb (m_type m) message_type) (reverse (messages st)).

Definition fallback_resource (id title type topic : string) (difficulty : Z)
    (minutes : Z) (objective description : string) : Resource :=
  {| r_id := Some id; r_title := Some title; r_type := Some type;
     r_topic := Some topic; r_difficulty := Some difficulty;
     r_duration_minutes := Some minutes;
     r_learning_objectives := Some [objective];
     r_prerequisites := Some []; r_description := Some description |}.

Definition _generate_fallback_path (w : World) (st : AgentState)
  : LearningPath :=
  let subject := subject st in
  let difficulty := difficulty_level st in
  {| lp_path_name := Some ("Personalized " +:+ subject +:+ " Learning Path");
     lp_total_duration := Some "4-6 weeks";
     lp_resources := Some
       [ fallback_resource (uuid4 w "fallback_resource" 0 0)
           ("Introduction to " +:+ subject) "lesson"
           (subject +:+ " fundamentals") (Z.max 1 (difficulty - 1)) 20
           ("Understand basic " +:+ subject +:+ " concepts")
           ("Foundational concepts in " +:+ subject);
         fallback_resource (uuid4 w "fallback_resource" 1 0)
           ("Core " +:+ subject +:+ " Concepts") "tutorial"
           (subject +:+ " core principles") difficulty 30
           ("Apply " +:+ subject +:+ " principles")
           ("Deep dive into " +:+ subject +:+ " principles");
         fallback_resource (uuid4 w "fallback_resource" 2 0)
           ("Practical " +:+ subject +:+ " Applications") "practice"
           (subject +:+ " applications") (Z.min 5 (difficulty + 1)) 35
           ("Practice " +:+ subject +:+ " skills")
           ("Hands-on practice with " +:+ subject) ];
     lp_milestones := Some
       [ {| ms_milestone := "Foundation Complete";
            ms_after_resource := "resource_1";
            ms_assessment_type := "quiz" |} ] |}.

(** The prompt reads [learner_profile.get(...)] before the model is
    called; the model is called outside the [try]. *)
Definition _create_learning_path (w : World) (st : AgentState)
    (analysis : MessageContent) : result LearningPath :=
  match learner_profile st with
  | None => Raise NoneType_get
  | Some _ =>
      match llm_path w with
      | LLMRaises e => Raise e
      | LLMJson path => Ok path
      | LLMUnparseable => Ok (_generate_fallback_path w st)
      end
  end.

Definition task_of_resource (w : World) (st : AgentState) (i : nat)
    (resource : Resource) : result Task :=
  let task_id := uuid4 w "task" i 0 in
  resource_id ← subscript "id" (r_id resource);
  content_type ← subscript "type" (r_type resource);
  topic ← subscript "topic" (r_topic resource);
  title ← subscript "title" (r_title resource);
  difficulty ← subscript "difficulty" (r_difficulty resource);
  duration ← subscript "duration_minutes" (r_duration_minutes resource);
  objectives ← subscript "learning_objectives"
                 (r_learning_objectives resource);
  description ← subscript "description" (r_description resource);
  mret {| t_task_id := task_id; t_resource_id := resource_id;
          t_task_type := "content_generation";
          t_content_type := content_type; t_topic := topic;
          t_title := title; t_difficulty := difficulty;
          t_learning_style := learning_style st; t_duration := duration;
          t_objectives := objectives; t_description := description;
          t_priority := 1; t_status := "pending" |}.

Definition _generate_learning_tasks (w : World) (learning_path : LearningPath)
    (st : AgentState) : result (list Task) :=
  resources ← subscript "resources" (lp_resources learning_path);
  for_each (task_of_resource w st) 0 resources.

Definition task_message (w : World) (i : nat) (task : Task) : Message :=
  {| m_sender := agent_name;
     m_receiver := "ContentGeneratorAgent";
     m_type := "content_generation_task";
     m_content := TaskContent task;
     m_timestamp := utcnow w "message" i 0 |}.

Definition no_analysis (st : AgentState) : AgentState :=
  set_should_continue false (errors_append "No profile analysis found" st).

Definition body (w : World) : M unit :=
  profile_message ← gets (λ st, _get_latest_message st "profile_analysis_complete");
  match profile_message with
  | None => modify no_analysis
  | Some profile_message =>
      learning_path ← (λ st, (_create_learning_path w st
                                 (m_content profile_message), st));
      learning_tasks ← (λ st, (_generate_learning_tasks w learning_path st, st));
      resources ← lift (subscript "resources" (lp_resources learning_path));
      modify (set_current_resources resources);;
      modify (set_learning_path_id (Some (uuid4 w "learning_path_id" 0 0)));;
      modify (λ st, set_messages
                      (messages st ++ imap (task_message w) learning_tasks) st);;
      modify (set_current_agent "ContentGeneratorAgent");;
      modify (set_workflow_step "content_generation")
  end.

Definition handler (e : exn) (st : AgentState) : AgentState :=
  let st := errors_append ("Path planning failed: " +:+ e) st in
  set_retry_count (retry_count st + 1) st.

Definition __call__ (w : World) : AgentState → AgentState :=
  try_except (body w) handler.

End PathPlannerAgent.

(** ** Updates of a content or question dictionary *)

(** [content["created_at"] = ...; content["generated_by"] = ...;
    content["learner_id"] = ...] *)
Definition content_add_metadata (created_at generated_by learner : string)
    (c : Content) : Content :=
    {| c_id := c_id c; c_title := c_title c; c_type := c_type c; c_content :=
       c_content c; c_summary := c_summary c; c_learning_objectives :=
       c_learning_objectives c; c_key_concepts := c_key_concepts c;
       c_difficulty_level := c_difficulty_level c; c_estimated_duration :=
       c_estimated_duration c; c_created_at := Some created_at; c_generated_by
       := Some generated_by; c_learner_id := Some learner; c_visual_example :=
       c_visual_example c; c_youtube_search_query := c_youtube_search_query c;
       c_visual_aids := c_visual_aids c; c_audio_enhancements :=
       c_audio_enhancements c; c_hands_on_activities := c_hands_on_activities c |}.

Definition content_set_visual_example (v : VisualExample) (c : Content)
  : Content :=
    {| c_id := c_id c; c_title := c_title c; c_type := c_type c; c_content :=
       c_content c; c_summary := c_summary c; c_learning_objectives :=
       c_learning_objectives c; c_key_concepts := c_key_concepts c;
       c_difficulty_level := c_difficulty_level c; c_estimated_duration :=
       c_estimated_duration c; c_created_at := c_created_at c; c_generated_by
       := c_generated_by c; c_learner_id := c_learner_id c; c_visual_example :=
       Some v; c_youtube_search_query := c_youtube_search_query c;
       c_visual_aids := c_visual_aids c; c_audio_enhancements :=
       c_audio_enhancements c; c_hands_on_activities := c_hands_on_activities c |}.

Definition content_set_visual_aids (query : string) (aids : list string)
    (c : Content) : Content :=
    {| c_id := c_id c; c_title := c_title c; c_type := c_type c; c_content :=
       c_content c; c_summary := c_summary c; c_learning_objectives :=
       c_learning_objectives c; c_key_concepts := c_key_concepts c;
       c_difficulty_level := c_difficulty_level c; c_estimated_duration :=
       c_estimated_duration c; c_created_at := c_created_at c; c_generated_by
       := c_generated_by c; c_learner_id := c_learner_id c; c_visual_example :=
       c_visual_example c; c_youtube_search_query := Some query; c_visual_aids
       := Some aids; c_audio_enhancements := c_audio_enhancements c;
       c_hands_on_activities := c_hands_on_activities c |}.

Definition content_set_audio_enhancements (a : AudioEnhancements)
    (c : Content) : Content :=
    {| c_id := c_id c; c_title := c_title c; c_type := c_type c; c_content :=
       c_content c; c_summary := c_summary c; c_learning_objectives :=
       c_learning_objectives c; c_key_concepts := c_key_concepts c;
       c_difficulty_level := c_difficulty_level c; c_estimated_duration :=
       c_estimated_duration c; c_created_at := c_created_at c; c_generated_by
       := c_generated_by c; c_learner_id := c_learner_id c; c_visual_example :=
       c_visual_example c; c_youtube_search_query := c_youtube_search_query c;
       c_visual_aids := c_visual_aids c; c_audio_enhancements := Some a;
       c_hands_on_activities := c_hands_on_activities c |}.

Definition content_set_hands_on_activities (l : list string) (c : Content)
  : Content :=
    {| c_id := c_id c; c_title := c_title c; c_type := c_type c; c_content :=
       c_content c; c_summary := c_summary c; c_learning_objectives :=
       c_learning_objectives c; c_key_concepts := c_key_concepts c;
       c_difficulty_level := c_difficulty_level c; c_estimated_duration :=
       c_estimated_duration c; c_created_at := c_created_at c; c_generated_by
       := c_generated_by c; c_learner_id := c_learner_id c; c_visual_example :=
       c_visual_example c; c_youtube_search_query := c_youtube_search_query c;
       c_visual_aids := c_visual_aids c; c_audio_enhancements :=
       c_audio_enhancements c; c_hands_on_activities := Some l |}.

(** [question["id"] = ...; question["resource_id"] = ...;
    question["created_at"] = ...; question["learner_id"] = ...] *)
Definition question_add_metadata (id : string) (resource : option string)
    (created_at learner : string) (q : Question) : Question :=
    {| q_id := Some id; q_question := q_question q; q_options := q_options q;
       q_correct_answer := q_correct_answer q; q_explanation := q_explanation
       q; q_topic := q_topic q; q_difficulty_level := q_difficulty_level q;
       q_learning_objective := q_learning_objective q; q_question_type :=
       q_question_type q; q_resource_id := resource; q_created_at := Some
       created_at; q_learner_id := Some learner |}.

(** ** Content generation *)

Module ContentGeneratorAgent.

Definition agent_name : string := "ContentGeneratorAgent".

(** The contents of the messages addressed to this agent that carry a
    content-generation task, oldest first. *)
Definition _get_content_tasks (st : AgentState) : list MessageContent :=
  m_content <$>
    List.filter (λ m, String.eqb (m_receiver m) agent_name
                        && String.eqb (m_type m) "content_generation_task")
      (messages st).

Definition _generate_fallback_content (w : World) (i : nat) (task : Task)
  : Content :=
  {| c_id := Some (t_resource_id task);
     c_title := Some (t_title task);
     c_type := Some (t_content_type task);
     c_content := Some
       ("This lesson covers " +:+ t_topic task
          +:+ ". You'll learn the fundamental concepts and practical applications.");
     c_summary := Some ("Introduction to " +:+ t_topic task +:+ " concepts.");
     c_learning_objectives := Some (t_objectives task);
     c_key_concepts := Some [t_topic task];
     c_difficulty_level := Some (t_difficulty task);
     c_estimated_duration := Some (t_duration task);
     c_created_at := Some (utcnow w "fallback_content" i 0);
     c_generated_by := Some agent_name;
     c_learner_id := None;
     c_visual_example := None;
     c_youtube_search_query := None;
     c_visual_aids := None;
     c_audio_enhancements := None;
     c_hands_on_activities := None |}.

Definition _generate_content (w : World) (i : nat) (task : Task)
    (st : AgentState) : result Content :=
  match llm_content w i with
  | LLMRaises e => Raise e
  | LLMJson parsed_content =>
      Ok (content_add_metadata (utcnow w "content" i 0) agent_name
            (learner_id st) parsed_content)
  | LLMUnparseable => Ok (_generate_fallback_content w i task)
  end.

Definition dq : string := String "034"%char "".
Definition nl : string := String "010"%char "".

Definition _get_fallback_html (task : Task) : string :=
  join nl
    [ "<!DOCTYPE html>";
      "<html lang=" +:+ dq +:+ "en" +:+ dq +:+ ">";
      "<head>";
      "    <meta charset=" +:+ dq +:+ "UTF-8" +:+ dq +:+ ">";
      "    <meta name=" +:+ dq +:+ "viewport" +:+ dq +:+ " content=" +:+ dq
        +:+ "width=device-width, initial-scale=1.0" +:+ dq +:+ ">";
      "    <title>" +:+ t_title task +:+ "</title>";
      "    <link href=" +:+ dq
        +:+ "https://cdn.jsdelivr.net/npm/bootstrap@5.3.0/dist/css/bootstrap.min.css"
        +:+ dq +:+ " rel=" +:+ dq +:+ "stylesheet" +:+ dq +:+ ">";
      "    <style>";
      "        .animated { animation: fadeIn 1s ease-in; }";
      "        @keyframes fadeIn { from { opacity: 0; } to { opacity: 1; } }";
      "    </style>";
      "</head>";
      "<body class=" +:+ dq +:+ "bg-light" +:+ dq +:+ ">";
      "    <div class=" +:+ dq +:+ "container py-5" +:+ dq +:+ ">";
      "        <div class=" +:+ dq +:+ "text-center" +:+ dq +:+ ">";
      "            <h1 class=" +:+ dq +:+ "animated" +:+ dq +:+ ">"
        +:+ t_title task +:+ "</h1>";
      "            <p class=" +:+ dq +:+ "lead animated" +:+ dq
        +:+ ">Interactive demonstration of " +:+ t_topic task +:+ "</p>";
      "            <div class=" +:+ dq +:+ "btn btn-primary animated" +:+ dq
        +:+ ">Explore Concept</div>";
      "        </div>";
      "    </div>";
      "</body>";
      "</html>" ].

Definition _generate_visual_example (w : World) (i : nat) (task : Task)
  : result VisualExample :=
  match llm_visual w i with
  | LLMRaises e => Raise e
  | LLMJson v => Ok v
  | LLMUnparseable =>
      Ok {| ve_html_content := Some (_get_fallback_html task);
            ve_description :=
              Some ("Interactive demonstration of " +:+ t_topic task);
            ve_interaction_instructions :=
              Some "Click and explore the interactive elements" |}
  end.

Definition _enhance_with_multimedia (content : Content) (st : AgentState)
  : result Content :=
  let learning_style := learning_style st in
  if String.eqb learning_style "visual" then
    title ← subscript "title" (c_title content);
    mret (content_set_visual_aids
            (title +:+ " tutorial visual explanation")
            [ "Diagrams and charts"; "Infographics"; "Mind maps";
              "Visual demonstrations" ] content)
  else if String.eqb learning_style "auditory" then
    title ← subscript "title" (c_title content);
    mret (content_set_audio_enhancements
            {| ae_text_to_speech := true;
               ae_discussion_prompts :=
                 [ "Discuss the key concepts of " +:+ title;
                   "Explain " +:+ title +:+ " to a friend";
                   "Record yourself explaining the main points" ];
               ae_listening_exercises :=
                 [ "Listen to the content multiple times";
                   "Take notes while listening";
                   "Summarize verbally" ] |} content)
  else if String.eqb learning_style "kinesthetic" then
    title ← subscript "title" (c_title content);
    mret (content_set_hands_on_activities
            [ "Practice exercises for " +:+ title;
              "Interactive simulations"; "Real-world applications";
              "Step-by-step activities" ] content)
  else Ok content.

(** One turn of the loop over the tasks.  [task['title']] is read first
    (for the progress line), so a message content that is not a task
    raises [KeyError]. *)
Definition generate_one (w : World) (st : AgentState) (i : nat)
    (task : MessageContent) : result Content :=
  task ← match task with
         | TaskContent t => Ok t
         | _ => Raise (KeyError "title")
         end;
  content ← _generate_content w i task st;
  content ← (if String.eqb (learning_style st) "visual" then
               visual_example ← _generate_visual_example w i task;
               mret (content_set_visual_example visual_example content)
             else Ok content);
  _enhance_with_multimedia content st.

Definition body (w : World) : M unit :=
  content_tasks ← gets _get_content_tasks;
  match content_tasks with
  | [] =>
      modify (set_current_agent "AssessmentAgent");;
      modify (set_workflow_step "assessment_generation")
  | _ :: _ =>
      generated_content ← (λ st, (for_each (generate_one w st) 0 content_tasks, st));
      modify (set_generated_content generated_content);;
      modify (messages_append
        {| m_sender := agent_name;
           m_receiver := "AssessmentAgent";
           m_type := "content_generation_complete";
           m_content := GeneratedCount (length generated_content);
           m_timestamp := utcnow w "message" 0 0 |});;
      modify (set_current_agent "AssessmentAgent");;
      modify (set_workflow_step "assessment_generation")
  end.

Definition handler (e : exn) (st : AgentState) : AgentState :=
  let st := errors_append ("Content generation failed: " +:+ e) st in
  set_retry_count (retry_count st + 1) st.

Definition __call__ (w : World) : AgentState → AgentState :=
  try_except (body w) handler.

End ContentGeneratorAgent.

(** ** Assessment generation *)

Module AssessmentAgent.

Definition agent_name : string := "AssessmentAgent".

Definition _generate_fallback_questions (w : World) (i : nat)
    (content : Content) (st : AgentState) : list Question :=
  [ {| q_id := Some (uuid4 w "fallback_question" i 0);
       q_question := Some
         ("What is the main concept covered in "
            +:+ get (c_title content) "this lesson" +:+ "?");
       q_options := Some
         [ get (c_title content) "Main concept"; "Unrelated concept 1";
           "Unrelated concept 2"; "Unrelated concept 3" ];
       q_correct_answer := Some (get (c_title content) "Main concept");
       q_explanation := Some
         ("This lesson focuses on "
            +:+ get (c_title content) "the main concept");
       q_topic := Some (get (c_title content) "General");
       q_difficulty_level := Some (get (c_difficulty_level content) 1);
       q_learning_objective := Some "Understanding basic concepts";
       q_question_type := Some "knowledge";
       q_resource_id := c_id content;
       q_created_at := Some (utcnow w "fallback_question" i 0);
       q_learner_id := Some (learner_id st) |} ].

Definition _generate_quiz_questions (w : World) (i : nat) (content : Content)
    (st : AgentState) : result (list Question) :=
  match llm_quiz w i with
  | LLMRaises e => Raise e
  | LLMJson questions =>
      Ok (imap (λ j, question_add_metadata (uuid4 w "question" i j)
                       (c_id content) (utcnow w "question" i j)
                       (learner_id st)) questions)
  | LLMUnparseable => Ok (_generate_fallback_questions w i content st)
  end.

Definition _create_assessment_strategy (st : AgentState)
  : result AssessmentStrategy :=
  match learner_profile st with
  | None => Raise NoneType_get
  | Some learner_profile =>
      Ok {| as_strategy_type := "adaptive_assessment";
            as_frequency := "after_each_resource";
            as_question_count_per_quiz := 3;
            as_passing_score := 70;
            as_retake_policy := "unlimited_with_feedback";
            as_feedback_type := "immediate_with_explanation";
            as_track_time_spent := true;
            as_track_attempts := true;
            as_track_improvement := true;
            as_learning_style := p_learning_style learner_profile;
            as_difficulty_adaptation := true;
            as_weak_area_focus := true |}
  end.

Definition body (w : World) : M unit :=
  generated_content ← gets generated_content;
  match generated_content with
  | [] =>
      modify (errors_append "No content available for assessment generation")
  | _ :: _ =>
      questions ← (λ st, (for_each (λ i content,
                                       _generate_quiz_questions w i content st)
                            0 generated_content, st));
      let quiz_questions := concat questions in
      assessment_strategy ← (λ st, (_create_assessment_strategy st, st));
      modify (set_quiz_questions quiz_questions);;
      modify (λ st, set_progress_data
                      (<["assessment_strategy" := assessment_strategy]>
                         (progress_data st)) st);;
      modify (messages_append
        {| m_sender := agent_name;
           m_receiver := "OrchestratorAgent";
           m_type := "assessment_generation_complete";
           m_content := AssessmentSummary (length quiz_questions)
                          assessment_strategy;
           m_timestamp := utcnow w "message" 0 0 |});;
      modify (set_current_agent "OrchestratorAgent");;
      modify (set_workflow_step "orchestration_complete");;
      modify (set_should_continue true)
  end.

(** Unlike the three earlier stages, the handler leaves [retry_count]
    alone. *)
Definition handler (e : exn) (st : AgentState) : AgentState :=
  errors_append ("Assessment generation failed: " +:+ e) st.

Definition __call__ (w : World) : AgentState → AgentState :=
  try_except (body w) handler.

End AssessmentAgent.

(** ** Final orchestration *)

Module OrchestratorAgent.

Definition agent_name : string := "OrchestratorAgent".

(** The result of the validation; its [completion_percentage], a float
    that nothing reads, is left out. *)
Record Validation := {
  is_complete : bool;
  missing_components : list string
}.

Definition required_components (st : AgentState) : list (string * bool) :=
  [ ("learner_profile", bool_decide (is_Some (learner_profile st)));
    ("learning_objectives", nonempty (learning_objectives st));
    ("generated_content", nonempty (generated_content st));
    ("quiz_questions", nonempty (quiz_questions st));
    ("learning_path_id", bool_decide (is_Some (learning_path_id st))) ].

Definition _validate_workflow_completion (st : AgentState) : Validation :=
  let missing := fst <$> List.filter (λ c, negb (snd c)) (required_components st) in
  {| is_complete := Nat.eqb (length missing) 0;
     missing_components := missing |}.

(** [name in missing] *)
Definition is_in (name : string) (missing : list string) : bool :=
  existsb (String.eqb name) missing.

Definition _handle_incomplete_workflow (validation : Validation)
    (st : AgentState) : AgentState :=
  let missing := missing_components validation in
  let st := errors_append ("Workflow incomplete. Missing: " +:+ join ", " missing) st in
  if is_in "learner_profile" missing then
    set_current_agent "ProfileAnalysisAgent"
      (set_next_action "restart_profile_analysis" st)
  else if is_in "generated_content" missing then
    set_current_agent "ContentGeneratorAgent"
      (set_next_action "restart_content_generation" st)
  else if is_in "quiz_questions" missing then
    set_current_agent "AssessmentAgent"
      (set_next_action "restart_assessment_generation" st)
  else
    set_next_action "manual_intervention_required"
      (set_should_continue false st).

(** [list(set(...))]: the senders without repetition. *)
Definition _extract_agents_involved (st : AgentState) : list string :=
  remove_dups (m_sender <$> messages st).

Definition _calculate_processing_time (w : World) (st : AgentState)
  : result string :=
  match messages st with
  | [] => Ok "0"
  | first :: _ => elapsed_since w (m_timestamp first)
  end.

Definition _create_learning_package (w : World) (st : AgentState)
  : result LearningPackage :=
  total_processing_time ← _calculate_processing_time w st;
  mret {| pk_package_id := learning_path_id st;
          pk_learner_id := learner_id st;
          pk_created_at := utcnow w "created_at" 0 0;
          pk_learning_profile := learner_profile st;
          pk_learning_objectives := learning_objectives st;
          pk_content_resources := generated_content st;
          pk_quiz_questions := quiz_questions st;
          pk_assessment_strategy := progress_data st !! "assessment_strategy";
          pk_visual_examples := visual_examples st;
          pk_youtube_videos := youtube_videos st;
          pk_learning_style := learning_style st;
          pk_difficulty_level := difficulty_level st;
          pk_weak_areas := weak_areas st;
          pk_agents_involved := _extract_agents_involved st;
          pk_total_processing_time := total_processing_time;
          pk_message_count := length (messages st);
          pk_error_count := length (errors st) |}.

Definition milestone_of (i : nat) (content : Content)
  : result ProgressMilestone :=
  resource_id ← subscript "id" (c_id content);
  title ← subscript "title" (c_title content);
  mret {| pm_milestone_id := "resource_" +:+ pretty i;
          pm_resource_id := resource_id;
          pm_title := title;
          pm_required_score := 70;
          pm_attempts_allowed := 3 |}.

Definition _setup_progress_tracking (st : AgentState) : result ProgressTracking :=
  milestones ← for_each milestone_of 0 (generated_content st);
  mret {| pt_tracking_id := "progress_" +:+ learner_id st;
          pt_milestones := milestones;
          pt_difficulty_adjustment := true;
          pt_content_recommendation := true;
          pt_weak_area_focus := true;
          pt_real_time_progress := true;
          pt_detailed_analytics := true;
          pt_learning_insights := true |}.

Definition body (w : World) : M unit :=
  validation_result ← gets _validate_workflow_completion;
  if negb (is_complete validation_result) then
    modify (_handle_incomplete_workflow validation_result)
  else
    learning_package ← (λ st, (_create_learning_package w st, st));
    progress_setup ← (λ st, (_setup_progress_tracking st, st));
    modify (set_learning_package (Some learning_package));;
    modify (set_progress_tracking (Some progress_setup));;
    modify (set_workflow_status (Some "completed"));;
    modify (set_should_continue false);;
    modify (set_next_action "deliver_to_learner");;
    modify (λ st, messages_append
      {| m_sender := agent_name;
         m_receiver := "System";
         m_type := "workflow_complete";
         m_content := WorkflowComplete learning_package
                        (utcnow w "completion_time" 0 0)
                        (length (generated_content st))
                        (length (quiz_questions st));
         m_timestamp := utcnow w "message" 0 0 |} st).

Definition handler (e : exn) (st : AgentState) : AgentState :=
  errors_append ("Orchestration failed: " +:+ e) st.

Definition __call__ (w : World) : AgentState → AgentState :=
  try_except (body w) handler.

End OrchestratorAgent.

(** ** The workflow graph, its routers and the run *)

Module LearningAgentWorkflow.

(** The three strings a router returns. *)
Inductive Verdict := v_continue | v_retry | v_end.

Inductive Node :=
| profile_analysis
| path_planning
| content_generation
| assessment_generation
| orchestration.

Inductive Target := To (n : Node) | END.

Global Instance Node_eq_dec : EqDecision Node.
Proof. solve_decision. Defined.
Global Instance Verdict_eq_dec : EqDecision Verdict.
Proof. solve_decision. Defined.

(** [workflow.add_node(name, agent)] *)
Definition node_agent (n : Node) : World → AgentState → AgentState :=
  match n with
  | profile_analysis => ProfileAnalysisAgent.__call__
  | path_planning => PathPlannerAgent.__call__
  | content_generation => ContentGeneratorAgent.__call__
  | assessment_generation => AssessmentAgent.__call__
  | orchestration => OrchestratorAgent.__call__
  end.

(** [workflow.add_edge(a, b)] *)
Definition edges : list (Node * Target) :=
  [ (profile_analysis, To path_planning);
    (path_planning, To content_generation);
    (content_generation, To assessment_generation);
    (assessment_generation, To orchestration);
    (orchestration, END) ].

Definition entry_point : Node := profile_analysis.

Definition _should_continue_from_profile (st : AgentState) : Verdict :=
  if nonempty (errors st) && (retry_count st <? 3) then v_retry
  else if nonempty (errors st) then v_end
  else if nonempty (learning_objectives st) then v_continue
  else v_retry.

Definition _should_continue_from_path (st : AgentState) : Verdict :=
  if nonempty (errors st) && (retry_count st <? 3) then v_retry
  else if nonempty (errors st) then v_end
  else if nonempty (current_resources st) then v_continue
  else v_retry.

Definition _should_continue_from_content (st : AgentState) : Verdict :=
  if nonempty (errors st) && (retry_count st <? 3) then v_retry
  else if nonempty (errors st) then v_end
  else if nonempty (generated_content st) then v_continue
  else v_retry.

Definition _should_continue_from_assessment (st : AgentState) : Verdict :=
  if nonempty (errors st) && (retry_count st <? 3) then v_retry
  else if nonempty (errors st) then v_end
  else if nonempty (quiz_questions st) then v_continue
  else v_retry.

(** [workflow.add_conditional_edges(node, router, table)]: the router of a
    node and where each of its verdicts leads.  The orchestration node has
    none. *)
Definition conditional_edges (n : Node)
  : option ((AgentState → Verdict) * (Verdict → Target)) :=
  match n with
  | profile_analysis =>
      Some (_should_continue_from_profile,
            λ v, match v with
                 | v_continue => To path_planning
                 | v_retry => To profile_analysis
                 | v_end => END
                 end)
  | path_planning =>
      Some (_should_continue_from_path,
            λ v, match v with
                 | v_continue => To content_generation
                 | v_retry => To path_planning
                 | v_end => END
                 end)
  | content_generation =>
      Some (_should_continue_from_content,
            λ v, match v with
                 | v_continue => To assessment_generation
                 | v_retry => To content_generation
                 | v_end => END
                 end)
  | assessment_generation =>
      Some (_should_continue_from_assessment,
            λ v, match v with
                 | v_continue => To orchestration
                 | v_retry => To assessment_generation
                 | v_end => END
                 end)
  | orchestration => None
  end.

(** The router of a stage, for the four stages that have one. *)
Definition router (n : Node) : option (AgentState → Verdict) :=
  fst <$> conditional_edges n.

(** Where the graph goes after node [n] has returned [st]: the router of
    the node picks the target in the table given to
    [add_conditional_edges]; a node without a router follows its plain edge.
    (The plain edges of the four routed stages repeat the target of their
    [continue] verdict.) *)
Definition plain_edge (n : Node) : Target :=
  match List.find (λ e, bool_decide (fst e = n)) edges with
  | Some e => snd e
  | None => END
  end.

Definition next_target (n : Node) (st : AgentState) : Target :=
  match conditional_edges n with
  | Some (route, table) => table (route st)
  | None => plain_edge n
  end.

(** Modelled from the spec: one turn of the loop that executes the compiled
    graph.  The loop belongs to the graph library and is not among the
    sources; section 4.3 gives its shape: invoke the current node on the
    state, then let that node's router decide where to go.  What a verdict
    does is read off the source ([next_target]); nothing in the sources
    assigns a key of the state between two stage invocations. *)
Definition step (w : World) (n : Node) (st : AgentState)
  : Target * AgentState :=
  let st' := node_agent n w st in
  (next_target n st', st').

Inductive Run :=
| Finished (final_state : AgentState) (invocations : nat)
| Unfinished (at_node : Node) (st : AgentState) (invocations : nat).

(** Modelled from the spec: the loop of section 4.3 from node [n], where
    [worlds k] is the world of the stage invocation number [k] and [fuel]
    bounds the number of further invocations.  As in the graph the source
    builds, the routers alone decide when the loop stops: no edge consults
    [should_continue]. *)
Fixpoint run (fuel : nat) (worlds : nat → World) (k : nat) (n : Node)
    (st : AgentState) : Run :=
  match fuel with
  | O => Unfinished n st k
  | S fuel' =>
      match step (worlds k) n st with
      | (END, st') => Finished st' (S k)
      | (To n', st') => run fuel' worlds (S k) n' st'
      end
  end.

Definition _create_initial_state (w : World) (learner_profile : Profile)
  : AgentState :=
  {| learner_id := get (p_id learner_profile) (uuid4 w "learner_id" 0 0);
     learner_profile := Some learner_profile;
     learning_path_id := None;
     current_resources := [];
     learning_objectives := [];
     topic := get (p_subject learner_profile) "general";
     subject := get (p_subject learner_profile) "general";
     difficulty_level := get (p_knowledge_level learner_profile) 1;
     learning_style := get (p_learning_style learner_profile) "visual";
     weak_areas := get (p_weak_areas learner_profile) [];
     generated_content := [];
     quiz_questions := [];
     visual_examples := [];
     youtube_videos := [];
     pretest_results := None;
     quiz_results := [];
     progress_data := ∅;
     messages := [];
     current_agent := "ProfileAnalysisAgent";
     workflow_step := "profile_analysis";
     errors := [];
     retry_count := 0;
     should_continue := true;
     next_action := "start_workflow";
     timestamp := utcnow w "timestamp" 0 0;
     session_id := uuid4 w "session_id" 0 0;
     learning_package := None;
     progress_tracking := None;
     workflow_status := None |}.

Record PartialResults := {
  pr_generated_content : list Content;
  pr_quiz_questions : list Question;
  pr_learning_objectives : list string
}.

Record WorkflowMetadata := {
  wm_session_id : string;
  wm_total_messages : nat;
  wm_agents_involved : nat;
  wm_completion_time : string;
  wm_workflow_step : string
}.

(** The three shapes of the dictionary [run_workflow_sync] returns. *)
Inductive WorkflowResult :=
| Failed (errors : list string) (partial_results : PartialResults)
| Succeeded (learning_package : option LearningPackage)
    (progress_tracking : option ProgressTracking)
    (workflow_metadata : WorkflowMetadata)
| Crashed (error : string) (partial_results : AgentState).

(** ["success"] *)
Definition success (r : WorkflowResult) : bool :=
  match r with
  | Succeeded _ _ _ => true
  | Failed _ _ | Crashed _ _ => false
  end.

(** [r.get("errors")] *)
Definition result_errors (r : WorkflowResult) : option (list string) :=
  match r with
  | Failed errs _ => Some errs
  | Succeeded _ _ _ | Crashed _ _ => None
  end.

Definition _extract_workflow_results (final_state : AgentState)
  : WorkflowResult :=
  if nonempty (errors final_state) then
    Failed (errors final_state)
      {| pr_generated_content := generated_content final_state;
         pr_quiz_questions := quiz_questions final_state;
         pr_learning_objectives := learning_objectives final_state |}
  else
    Succeeded (learning_package final_state) (progress_tracking final_state)
      {| wm_session_id := session_id final_state;
         wm_total_messages := length (messages final_state);
         wm_agents_involved :=
           length (remove_dups (m_sender <$> messages final_state));
         wm_completion_time := timestamp final_state;
         wm_workflow_step := workflow_step final_state |}.

(** [invoke] stands for [self.workflow.invoke]: the execution of the
    compiled graph from the initial state, which returns the final state
    or raises.  The dictionary [initial_state] is passed by reference and
    is what the [except] branch returns; whether the stages work on that
    dictionary or on copies of it is the graph library's business, so
    [invoke] also tells what the dictionary holds when the call ends. *)
Definition run_workflow_sync
    (invoke : AgentState → result AgentState * AgentState)
    (w : World) (learner_profile : Profile) : WorkflowResult :=
  let initial_state := _create_initial_state w learner_profile in
  match invoke initial_state with
  | (Ok final_state, _) => _extract_workflow_results final_state
  | (Raise e, initial_state) => Crashed e initial_state
  end.

(** The values of a checkpoint as [get_workflow_status] reads them: every
    key is read with [.get], so each may be absent. *)
Record StateValues := {
  sv_workflow_step : option string;
  sv_current_agent : option string;
  sv_errors : option (list string);
  sv_should_continue : option bool
}.

(** The values of a checkpoint that holds a whole state. *)
Definition values_of (st : AgentState) : StateValues :=
  {| sv_workflow_step := Some (workflow_step st);
     sv_current_agent := Some (current_agent st);
     sv_errors := Some (errors st);
     sv_should_continue := Some (should_continue st) |}.

Definition steps : gmap string Z :=
  list_to_map
    [ ("profile_analysis", 20); ("path_planning", 40);
      ("content_generation", 70); ("assessment_generation", 90);
      ("orchestration_complete", 100) ].

Definition _calculate_progress_percentage (values : StateValues) : Z :=
  let current_step := get (sv_workflow_step values) "profile_analysis" in
  get (steps !! current_step) 0.

(** The two shapes of the dictionary [get_workflow_status] returns. *)
Inductive WorkflowStatus :=
| Status (session_id current_step current_agent : string)
    (progress_percentage : Z) (errors : list string) (should_continue : bool)
| StatusError (session_id error : string).

(** [get_state] stands for [self.workflow.get_state]: the values of the
    checkpoint stored for the session, or an exception. *)
Definition get_workflow_status (get_state : string → result StateValues)
    (session_id : string) : WorkflowStatus :=
  match get_state session_id with
  | Ok values =>
      Status session_id
        (get (sv_workflow_step values) "unknown")
        (get (sv_current_agent values) "unknown")
        (_calculate_progress_percentage values)
        (get (sv_errors values) [])
        (get (sv_should_continue values) false)
  | Raise e => StatusError session_id e
  end.

End LearningAgentWorkflow.

Import LearningAgentWorkflow.

(** ** Vocabulary of the specification *)

(** The key a stage's router tests before it answers [continue]: the
    required output of the stage. *)
Definition required_output (n : Node) (st : AgentState) : bool :=
  match n with
  | profile_analysis => nonempty (learning_objectives st)
  | path_planning => nonempty (current_resources st)
  | content_generation => nonempty (generated_content st)
  | assessment_generation => nonempty (quiz_questions st)
  | orchestration =>
      OrchestratorAgent.is_complete
        (OrchestratorAgent._validate_workflow_completion st)
  end.

(** The keys a stage assigns as its result. *)
Inductive Outputs :=
| ProfileOutputs (learning_objectives : list string) (difficulty_level : Z)
    (weak_areas : list string)
| PathOutputs (current_resources : list Resource)
    (learning_path_id : option string)
| ContentOutputs (generated_content : list Content)
| AssessmentOutputs (quiz_questions : list Question)
    (progress_data : gmap string AssessmentStrategy)
| OrchestrationOutputs (learning_package : option LearningPackage)
    (progress_tracking : option ProgressTracking)
    (workflow_status : option string).

Definition stage_outputs (n : Node) (st : AgentState) : Outputs :=
  match n with
  | profile_analysis =>
      ProfileOutputs (learning_objectives st) (difficulty_level st)
        (weak_areas st)
  | path_planning => PathOutputs (current_resources st) (learning_path_id st)
  | content_generation => ContentOutputs (generated_content st)
  | assessment_generation =>
      AssessmentOutputs (quiz_questions st) (progress_data st)
  | orchestration =>
      OrchestrationOutputs (learning_package st) (progress_tracking st)
        (workflow_status st)
  end.

(** The step a stage names as the next one when it succeeds. *)
Definition next_workflow_step (n : Node) : option string :=
  match n with
  | profile_analysis => Some "path_planning"
  | path_planning => Some "content_generation"
  | content_generation => Some "assessment_generation"
  | assessment_generation => Some "orchestration_complete"
  | orchestration => None
  end.

(** The router as the specification words it (section 4.1): the first two
    rules ask whether [errors] gained an entry during the invocation that
    has just ended, [errors_before] being the list when it began. *)
Definition spec_verdict (errors_before : list string) (n : Node)
    (st : AgentState) : Verdict :=
  let gained := Nat.ltb (length errors_before) (length (errors st)) in
  if gained && (retry_count st <? 3) then v_retry
  else if gained then v_end
  else if required_output n st then v_continue
  else v_retry.

(** The state after a sequence of stage invocations, whichever routing
    decisions chose the stages. *)
Definition invocations (schedule : list (Node * World)) (st : AgentState)
  : AgentState :=
  foldl (λ st nw, node_agent (fst nw) (snd nw) st) st schedule.

(** The value of [workflow_step] while stage [n] is the one to run. *)
Definition node_step (n : Node) : string :=
  match n with
  | profile_analysis => "profile_analysis"
  | path_planning => "path_planning"
  | content_generation => "content_generation"
  | assessment_generation => "assessment_generation"
  | orchestration => "orchestration_complete"
  end.

(** The [agent_name] of every stage. *)
Definition agent_names : list string :=
  [ ProfileAnalysisAgent.agent_name; PathPlannerAgent.agent_name;
    ContentGeneratorAgent.agent_name; AssessmentAgent.agent_name;
    OrchestratorAgent.agent_name ].

(** A resource that has the eight keys [_generate_learning_tasks] reads. *)
Definition complete_resource (r : Resource) : Prop :=
  is_Some (r_id r) ∧ is_Some (r_type r) ∧ is_Some (r_topic r)
  ∧ is_Some (r_title r) ∧ is_Some (r_difficulty r)
  ∧ is_Some (r_duration_minutes r) ∧ is_Some (r_learning_objectives r)
  ∧ is_Some (r_description r).

(** The input a stage checks for before it calls the model is absent. *)
Definition precondition_missing (n : Node) (st : AgentState) : Prop :=
  match n with
  | profile_analysis =>
      learner_profile st = None
      ∨ ∃ p, learner_profile st = Some p ∧ profile_is_empty p = true
  | path_planning =>
      PathPlannerAgent._get_latest_message st "profile_analysis_complete"
      = None
  | assessment_generation => generated_content st = []
  | content_generation | orchestration => False
  end.

(** The error a stage records for its missing input. *)
Definition precondition_error (n : Node) : string :=
  match n with
  | profile_analysis => "No learner profile provided"
  | path_planning => "No profile analysis found"
  | assessment_generation => "No content available for assessment generation"
  | content_generation | orchestration => ""
  end.

(** [k] invocations of the same stage, one world each. *)
Definition repeated (n : Node) (worlds : list World) : list (Node * World) :=
  (λ w, (n, w)) <$> worlds.

(** The five stages in the order of the plain edges of the graph. *)
Definition pipeline (w1 w2 w3 w4 w5 : World) : list (Node * World) :=
  [ (profile_analysis, w1); (path_planning, w2); (content_generation, w3);
    (assessment_generation, w4); (orchestration, w5) ].


Definition is_task (c : MessageContent) : Prop :=
  match c with
  | TaskContent _ => True
  | _ => False
  end.





(** ** Sample inputs *)

Module Sample.

Definition alice : Profile :=
  {| p_id := Some "learner-1";
     p_name := Some "Alice";
     p_learning_style := Some "visual";
     p_subject := Some "algebra";
     p_knowledge_level := Some 2;
     p_weak_areas := Some ["fractions"];
     p_other_keys := ["created_at"] |}.

(** The empty dictionary. *)
Definition nobody : Profile :=
  {| p_id := None; p_name := None; p_learning_style := None;
     p_subject := None; p_knowledge_level := None; p_weak_areas := None;
     p_other_keys := [] |}.

Definition ids (site : string) (i j : nat) : string :=
  site +:+ "-" +:+ pretty i +:+ "-" +:+ pretty j.

Definition clock (site : string) (i j : nat) : string :=
  "2024-01-01T00:00:00".

(** A model whose replies never contain JSON: every stage falls back. *)
Definition garbled : World :=
  {| llm_profile := LLMUnparseable;
     llm_path := LLMUnparseable;
     llm_content := λ _, LLMUnparseable;
     llm_visual := λ _, LLMUnparseable;
     llm_quiz := λ _, LLMUnparseable;
     uuid4 := ids;
     utcnow := clock;
     elapsed_since := λ _, Ok "1.5" |}.

(** A model whose every call raises. *)
Definition down : World :=
  {| llm_profile := LLMRaises "503 Service Unavailable";
     llm_path := LLMRaises "503 Service Unavailable";
     llm_content := λ _, LLMRaises "503 Service Unavailable";
     llm_visual := λ _, LLMRaises "503 Service Unavailable";
     llm_quiz := λ _, LLMRaises "503 Service Unavailable";
     uuid4 := ids;
     utcnow := clock;
     elapsed_since := λ _, Ok "1.5" |}.

(** A model that answers the profile stage with an analysis lacking
    ["recommended_difficulty"]. *)
Definition truncated : World :=
  {| llm_profile := LLMJson
       {| an_learning_objectives := Some ["Solve linear equations"];
          an_recommended_difficulty := None;
          an_focus_areas := Some ["fractions"];
          an_learning_strategy := None;
          an_estimated_timeline := None;
          an_personalization_notes := None |};
     llm_path := LLMUnparseable;
     llm_content := λ _, LLMUnparseable;
     llm_visual := λ _, LLMUnparseable;
     llm_quiz := λ _, LLMUnparseable;
     uuid4 := ids;
     utcnow := clock;
     elapsed_since := λ _, Ok "1.5" |}.

Definition initial : AgentState := _create_initial_state garbled alice.

(** The model answers until the third stage has run and is down from
    then on. *)
Definition down_after_three (k : nat) : World :=
  if Nat.ltb k 3 then garbled else down.

(** An executor that runs the loop on copies of the dictionary it is
    given and gives up after [limit] stage invocations, the way the graph
    library stops at its recursion limit. *)
Definition invoke_with_limit (limit : nat) (worlds : nat → World)
    (initial_state : AgentState) : result AgentState * AgentState :=
  match run limit worlds 0 entry_point initial_state with
  | Finished final_state _ => (Ok final_state, initial_state)
  | Unfinished _ _ _ => (Raise "Recursion limit reached", initial_state)
  end.

Definition after_profile : AgentState :=
  ProfileAnalysisAgent.__call__ garbled initial.
(** The message the profile stage leaves for the path planner. *)
Definition analysis_message : Message :=
  {| m_sender := "ProfileAnalysisAgent";
     m_receiver := "PathPlannerAgent";
     m_type := "profile_analysis_complete";
     m_content :=
       AnalysisContent (ProfileAnalysisAgent.fallback_analysis alice);
     m_timestamp := "2024-01-01T00:00:00" |}.
Definition after_path : AgentState :=
  PathPlannerAgent.__call__ garbled after_profile.
Definition after_content : AgentState :=
  ContentGeneratorAgent.__call__ garbled after_path.
Definition after_assessment : AgentState :=
  AssessmentAgent.__call__ garbled after_content.

End Sample.

(** * Properties *)

(** ** What one stage invocation may change *)

(** Unfolds a stage agent down to the case analysis of its [__call__]. *)
Ltac unfold_agent :=
  unfold node_agent,
    ProfileAnalysisAgent.__call__, ProfileAnalysisAgent.body,
    ProfileAnalysisAgent.complete, ProfileAnalysisAgent.handler,
    ProfileAnalysisAgent.no_profile,
    PathPlannerAgent.__call__, PathPlannerAgent.body,
    PathPlannerAgent.handler, PathPlannerAgent.no_analysis,
    ContentGeneratorAgent.__call__, ContentGeneratorAgent.body,
    ContentGeneratorAgent.handler,
    AssessmentAgent.__call__, AssessmentAgent.body, AssessmentAgent.handler,
    OrchestratorAgent.__call__, OrchestratorAgent.body,
    OrchestratorAgent.handler, OrchestratorAgent._handle_incomplete_workflow,
    try_except, mbind, M_bind, gets, modify, lift,
    errors_append, messages_append in *.

Ltac agent_cases :=
  unfold_agent; simpl in *; repeat case_match; simplify_eq; simpl in *.

(** The effect of a stage invocation on the two logs, on [retry_count] and
    on the keys that no stage assigns. *)
Record StageEffect (st st' : AgentState) : Prop := {
  eff_errors :
    errors st' = errors st ∨ ∃ d, errors st' = errors st ++ [d];
  eff_messages : messages st `prefix_of` messages st';
  eff_retry_count :
    retry_count st' = retry_count st
    ∨ (retry_count st' = retry_count st + 1
       ∧ ∃ d, errors st' = errors st ++ [d]);
  eff_learner_id : learner_id st' = learner_id st;
  eff_learner_profile : learner_profile st' = learner_profile st;
  eff_topic : topic st' = topic st;
  eff_subject : subject st' = subject st;
  eff_learning_style : learning_style st' = learning_style st;
  eff_visual_examples : visual_examples st' = visual_examples st;
  eff_youtube_videos : youtube_videos st' = youtube_videos st;
  eff_pretest_results : pretest_results st' = pretest_results st;
  eff_quiz_results : quiz_results st' = quiz_results st;
  eff_timestamp : timestamp st' = timestamp st;
  eff_session_id : session_id st' = session_id st
}.

Lemma prefix_snoc {A} (l k : list A) : l `prefix_of` l ++ k.
Proof. by apply prefix_app_r. Qed.

Local Hint Resolve prefix_snoc : core.

Ltac effect_goal :=
  split; simpl;
  first [ reflexivity
        | by left
        | by (right; eauto)
        | apply prefix_snoc
        | idtac ].

Lemma node_agent_effect (n : Node) (w : World) (st : AgentState) :
  StageEffect st (node_agent n w st).
Proof.
  destruct n; agent_cases; effect_goal.
Qed.

(** ** The routers *)

Lemma nonempty_true {A} (l : list A) : nonempty l = true ↔ l ≠ [].
Proof. destruct l; simpl; split; congruence. Qed.

Lemma nonempty_false {A} (l : list A) : nonempty l = false ↔ l = [].
Proof. destruct l; simpl; split; congruence. Qed.

(** All four routers are the same decision over the key of their stage. *)
Lemma router_table (n : Node) (route : AgentState → Verdict) (st : AgentState) :
  router n = Some route →
  route st =
    if nonempty (errors st) then
      if retry_count st <? 3 then v_retry else v_end
    else if required_output n st then v_continue
    else v_retry.
Proof.
  destruct n; simpl; intros [= <-];
    unfold _should_continue_from_profile, _should_continue_from_path,
      _should_continue_from_content, _should_continue_from_assessment;
    destruct (nonempty (errors st)), (retry_count st <? 3); reflexivity.
Qed.

Lemma router_continue (n : Node) (route : AgentState → Verdict) (st : AgentState) :
  router n = Some route →
  route st = v_continue ↔ errors st = [] ∧ required_output n st = true.
Proof.
  intros Hr. rewrite (router_table n route st Hr), <- nonempty_false.
  destruct (nonempty (errors st)), (retry_count st <? 3),
    (required_output n st); split; (intros [? ?] || intros ?);
    (congruence || auto).
Qed.

(** ** Path planning: a raising model, and the fallback *)

Lemma path_planner_raises (w : World) (st : AgentState) pm p e :
  PathPlannerAgent._get_latest_message st "profile_analysis_complete" = Some pm →
  learner_profile st = Some p →
  llm_path w = LLMRaises e →
  PathPlannerAgent.__call__ w st
  = set_retry_count (retry_count st + 1)
      (set_errors (errors st ++ ["Path planning failed: " +:+ e]) st).
Proof.
  intros Hm Hp Hl.
  unfold PathPlannerAgent.__call__, try_except, PathPlannerAgent.body,
    mbind, M_bind, gets.
  rewrite Hm. unfold PathPlannerAgent._create_learning_path.
  rewrite Hp, Hl. reflexivity.
Qed.

Lemma path_planner_falls_back (w : World) (st : AgentState) pm p :
  PathPlannerAgent._get_latest_message st "profile_analysis_complete" = Some pm →
  learner_profile st = Some p →
  llm_path w = LLMUnparseable →
  errors (PathPlannerAgent.__call__ w st) = errors st
  ∧ retry_count (PathPlannerAgent.__call__ w st) = retry_count st
  ∧ Some (current_resources (PathPlannerAgent.__call__ w st))
    = lp_resources (PathPlannerAgent._generate_fallback_path w st).
Proof.
  intros Hm Hp Hl.
  unfold PathPlannerAgent.__call__, try_except, PathPlannerAgent.body,
    mbind, M_bind, gets.
  rewrite Hm. unfold PathPlannerAgent._create_learning_path.
  rewrite Hp, Hl. simpl. auto.
Qed.

(** ** The claims *)

(** C1 (amended).  For each of the four routed stages the verdict is decided
    in this order: [retry] when the [errors] list of the state is non-empty
    (whenever during the run the entries were recorded) and [retry_count] is
    below 3; [end] when [errors] is non-empty and [retry_count] is 3 or more;
    [continue] when the stage's required output is non-empty; otherwise
    [retry].  In particular, when path planning starts with [retry_count] 0,
    the model raises on two attempts and the third attempt succeeds (here by
    the fallback path), the two errors stay recorded, [retry_count] is 2 and
    the required output is present, and the verdict after the third attempt
    is [retry]. *)
Theorem router_decides_on_recorded_errors
    (n : Node) (route : AgentState → Verdict) (any : AgentState)
    (w1 w2 w3 : World) (st : AgentState) (pm : Message) (p : Profile)
    (e1 e2 : exn) :
  router n = Some route →
  PathPlannerAgent._get_latest_message st "profile_analysis_complete" = Some pm →
  learner_profile st = Some p →
  retry_count st = 0 →
  llm_path w1 = LLMRaises e1 →
  llm_path w2 = LLMRaises e2 →
  llm_path w3 = LLMUnparseable →
  route any =
    (if nonempty (errors any) then
       if retry_count any <? 3 then v_retry else v_end
     else if required_output n any then v_continue
     else v_retry)
  ∧ let st1 := PathPlannerAgent.__call__ w1 st in
    let st2 := PathPlannerAgent.__call__ w2 st1 in
    let st3 := PathPlannerAgent.__call__ w3 st2 in
    errors st3
    = errors st ++ ["Path planning failed: " +:+ e1;
                    "Path planning failed: " +:+ e2]
    ∧ retry_count st3 = 2
    ∧ required_output path_planning st3 = true
    ∧ _should_continue_from_path st3 = v_retry.
Proof.
  intros Hr Hm Hp Hc H1 H2 H3. split; [by apply router_table|].
  intros st1 st2 st3.
  assert (E1 : st1 = set_retry_count (retry_count st + 1)
                       (set_errors (errors st ++ ["Path planning failed: " +:+ e1]) st))
    by (by apply path_planner_raises with pm p).
  assert (Hm1 : PathPlannerAgent._get_latest_message st1
                  "profile_analysis_complete" = Some pm)
    by (rewrite E1; exact Hm).
  assert (Hp1 : learner_profile st1 = Some p) by (rewrite E1; exact Hp).
  assert (E2 : st2 = set_retry_count (retry_count st1 + 1)
                       (set_errors (errors st1 ++ ["Path planning failed: " +:+ e2]) st1))
    by (by apply path_planner_raises with pm p).
  assert (Hm2 : PathPlannerAgent._get_latest_message st2
                  "profile_analysis_complete" = Some pm)
    by (rewrite E2; exact Hm1).
  assert (Hp2 : learner_profile st2 = Some p) by (rewrite E2; exact Hp1).
  destruct (path_planner_falls_back w3 st2 pm p Hm2 Hp2 H3) as (He & Hrc & Hres).
  fold st3 in He, Hrc, Hres.
  assert (He3 : errors st3 = errors st ++ ["Path planning failed: " +:+ e1;
                                           "Path planning failed: " +:+ e2]).
  { rewrite He, E2, E1. simpl. by rewrite <- (assoc_L (++)). }
  assert (Hrc3 : retry_count st3 = 2).
  { rewrite Hrc, E2, E1. simpl. lia. }
  assert (Hout : nonempty (current_resources st3) = true).
  { simpl in Hres. destruct (current_resources st3); [discriminate|reflexivity]. }
  repeat split; [exact He3|exact Hrc3|exact Hout|].
  unfold _should_continue_from_path. rewrite He3, Hrc3.
  destruct (errors st); reflexivity.
Qed.

Lemma router_decides_on_recorded_errors_witness :
  router path_planning = Some _should_continue_from_path
  ∧ llm_path Sample.down = LLMRaises "503 Service Unavailable"
  ∧ llm_path Sample.garbled = LLMUnparseable
  ∧ _should_continue_from_path
      (PathPlannerAgent.__call__ Sample.garbled
         (PathPlannerAgent.__call__ Sample.down
            (PathPlannerAgent.__call__ Sample.down Sample.after_profile)))
    = v_retry.
Proof.
  split; [reflexivity|]. split; [reflexivity|]. split; [reflexivity|].
  destruct (router_decides_on_recorded_errors path_planning
              _should_continue_from_path Sample.after_profile
              Sample.down Sample.down Sample.garbled Sample.after_profile
              Sample.analysis_message Sample.alice
              "503 Service Unavailable" "503 Service Unavailable"
              eq_refl eq_refl eq_refl eq_refl eq_refl eq_refl eq_refl)
    as (_ & _ & _ & _ & H).
  exact H.
Defined.

(** C1, as stated, fails: on the third attempt of path planning, after two
    attempts that each recorded an error, [errors] gains no entry and the
    required output is present, so that the specification's rules give
    [continue]; the router answers [retry]. *)
Lemma third_attempt_is_sent_back :
  let st2 := PathPlannerAgent.__call__ Sample.down
               (PathPlannerAgent.__call__ Sample.down Sample.after_profile) in
  let st3 := PathPlannerAgent.__call__ Sample.garbled st2 in
  length (errors st2) = 2%nat
  ∧ errors st3 = errors st2
  ∧ retry_count st3 = 2
  ∧ spec_verdict (errors st2) path_planning st3 = v_continue
  ∧ _should_continue_from_path st3 = v_retry
  ∧ _should_continue_from_path st3 ≠ spec_verdict (errors st2) path_planning st3.
Proof. vm_compute. repeat split; congruence. Qed.

(** C8 (amended).  After any invocation of a routed stage, the verdict is
    [continue] if and only if the stage's required output is populated and
    the [errors] list of the state is empty; so [continue] implies a
    populated output, while a populated output in a state that holds an
    error gets [retry] or [end]. *)
Theorem continue_iff_output_and_no_error
    (n : Node) (route : AgentState → Verdict) (w : World) (st : AgentState) :
  router n = Some route →
  (route (node_agent n w st) = v_continue
   ↔ errors (node_agent n w st) = []
     ∧ required_output n (node_agent n w st) = true)
  ∧ (required_output n (node_agent n w st) = true →
     errors (node_agent n w st) ≠ [] →
     route (node_agent n w st) = v_retry ∨ route (node_agent n w st) = v_end).
Proof.
  intros Hr. split; [by apply router_continue|].
  intros _ He. rewrite (router_table n route _ Hr).
  apply nonempty_true in He. rewrite He.
  destruct (retry_count _ <? 3); auto.
Qed.

Lemma continue_iff_output_and_no_error_witness :
  router profile_analysis = Some _should_continue_from_profile
  ∧ (_should_continue_from_profile
       (node_agent profile_analysis Sample.garbled Sample.initial) = v_continue
     ↔ errors (node_agent profile_analysis Sample.garbled Sample.initial) = []
       ∧ required_output profile_analysis
           (node_agent profile_analysis Sample.garbled Sample.initial) = true).
Proof.
  split; [reflexivity|].
  apply (continue_iff_output_and_no_error profile_analysis
           _should_continue_from_profile Sample.garbled Sample.initial).
  reflexivity.
Defined.

(** C8, as stated, fails: the profile stage that raised once and then
    succeeds has its output populated, and the verdict for that invocation
    is [retry]. *)
Lemma populated_output_sent_back :
  let st1 := ProfileAnalysisAgent.__call__ Sample.down Sample.initial in
  let st2 := ProfileAnalysisAgent.__call__ Sample.garbled st1 in
  learning_objectives st2 ≠ []
  ∧ required_output profile_analysis st2 = true
  ∧ _should_continue_from_profile st2 = v_retry
  ∧ ¬ (required_output profile_analysis st2 = true
       ↔ _should_continue_from_profile st2 = v_continue).
Proof.
  vm_compute. repeat split; try congruence.
  intros [H _]. specialize (H eq_refl). congruence.
Qed.

(** ** What a stage writes *)

Lemma node_agent_writes (n : Node) (w : World) (st : AgentState) :
  (∀ m, m ≠ n → stage_outputs m (node_agent n w st) = stage_outputs m st)
  ∧ (workflow_step (node_agent n w st) = workflow_step st
     ∨ Some (workflow_step (node_agent n w st)) = next_workflow_step n)
  ∧ (retry_count (node_agent n w st) = retry_count st
     ∨ retry_count (node_agent n w st) = retry_count st + 1
       ∧ n ≠ assessment_generation ∧ n ≠ orchestration).
Proof.
  destruct n; agent_cases;
    (split; [intros [] ?; (congruence || reflexivity)|]);
    (split; [first [by left | by right]|]);
    first [by left | by (right; repeat split; congruence)].
Qed.



(** ** Sequences of stage invocations *)

(** A relation between states that every stage invocation respects holds
    between a state and the state any sequence of invocations leads to. *)
Lemma invocations_preserve (R : AgentState → AgentState → Prop)
    (schedule : list (Node * World)) (st : AgentState) :
  (∀ st, R st st) →
  (∀ a b c, R a b → R b c → R a c) →
  (∀ n w st, R st (node_agent n w st)) →
  R st (invocations schedule st).
Proof.
  intros Hrefl Htrans Hnode. unfold invocations. revert st.
  induction schedule as [|[n w] schedule IH]; intros st; simpl; [apply Hrefl|].
  eapply Htrans; [apply Hnode|apply IH].
Qed.

(** C9.  After any sequence of stage invocations, whatever the routers
    decided between them (a router returns a verdict and cannot touch the
    state), the [errors] list and the [messages] log the sequence started
    from are prefixes of the later ones: entries are only appended, none is
    removed or rewritten, and the lengths do not decrease. *)
Theorem logs_are_append_only
    (schedule : list (Node * World)) (st : AgentState) :
  errors st `prefix_of` errors (invocations schedule st)
  ∧ messages st `prefix_of` messages (invocations schedule st)
  ∧ (length (errors st) ≤ length (errors (invocations schedule st)))%nat
  ∧ (length (messages st) ≤ length (messages (invocations schedule st)))%nat.
Proof.
  assert (He : errors st `prefix_of` errors (invocations schedule st)).
  { apply (invocations_preserve (λ a b, errors a `prefix_of` errors b));
      [done|by intros ???; etransitivity|].
    intros n w s.
    destruct (eff_errors _ _ (node_agent_effect n w s)) as [->|[d ->]];
      [reflexivity|apply prefix_snoc]. }
  assert (Hm : messages st `prefix_of` messages (invocations schedule st)).
  { apply (invocations_preserve (λ a b, messages a `prefix_of` messages b));
      [done|by intros ???; etransitivity|].
    intros n w s. apply node_agent_effect. }
  repeat split; auto using prefix_length.
Qed.

(** C10.  Given a state whose [learner_profile] is missing or is the empty
    dictionary, the profile stage does not raise: it returns the state it
    was given with ["No learner profile provided"] appended to [errors] and
    [should_continue] set to false; [learning_objectives] is as it was (empty
    if it was empty), no message is appended and [retry_count] is not
    touched. *)
Theorem profile_stage_without_profile (w : World) (st : AgentState) :
  (learner_profile st = None
   ∨ ∃ p, learner_profile st = Some p ∧ profile_is_empty p = true) →
  ProfileAnalysisAgent.__call__ w st
  = set_should_continue false
      (set_errors (errors st ++ ["No learner profile provided"]) st)
  ∧ errors (ProfileAnalysisAgent.__call__ w st)
    = errors st ++ ["No learner profile provided"]
  ∧ should_continue (ProfileAnalysisAgent.__call__ w st) = false
  ∧ learning_objectives (ProfileAnalysisAgent.__call__ w st)
    = learning_objectives st
  ∧ messages (ProfileAnalysisAgent.__call__ w st) = messages st
  ∧ retry_count (ProfileAnalysisAgent.__call__ w st) = retry_count st.
Proof.
  intros H.
  assert (E : ProfileAnalysisAgent.__call__ w st
              = set_should_continue false
                  (set_errors (errors st ++ ["No learner profile provided"]) st)).
  { unfold ProfileAnalysisAgent.__call__, try_except,
      ProfileAnalysisAgent.body, mbind, M_bind, gets. simpl.
    destruct H as [-> | (p & -> & ->)]; reflexivity. }
  rewrite E. repeat split.
Qed.

Lemma profile_stage_without_profile_witness :
  (learner_profile (_create_initial_state Sample.garbled Sample.nobody) = None
   ∨ ∃ p, learner_profile (_create_initial_state Sample.garbled Sample.nobody)
          = Some p ∧ profile_is_empty p = true)
  ∧ errors (ProfileAnalysisAgent.__call__ Sample.garbled
              (_create_initial_state Sample.garbled Sample.nobody))
    = ["No learner profile provided"]
  ∧ learning_objectives (ProfileAnalysisAgent.__call__ Sample.garbled
              (_create_initial_state Sample.garbled Sample.nobody)) = [].
Proof.
  assert (H : learner_profile (_create_initial_state Sample.garbled Sample.nobody)
              = None
              ∨ ∃ p, learner_profile
                       (_create_initial_state Sample.garbled Sample.nobody)
                     = Some p ∧ profile_is_empty p = true).
  { right. exists Sample.nobody. split; reflexivity. }
  split; [exact H|].
  destruct (profile_stage_without_profile Sample.garbled
              (_create_initial_state Sample.garbled Sample.nobody) H)
    as (_ & He & _ & Hl & _).
  split; [exact He|exact Hl].
Defined.

(** ** The retry counter *)









(** ** Final orchestration on an incomplete workflow *)

(** C5 (amended).  When the final-orchestration stage finds a required
    component missing, it appends the error ["Workflow incomplete. Missing:
    ..."] and leaves a hint for the caller instead of re-invoking a stage:
    [next_action] and [current_agent] name profile analysis when
    [learner_profile] is missing, otherwise content generation when
    [generated_content] is empty, otherwise assessment generation when
    [quiz_questions] is empty, and otherwise [should_continue] is cleared
    and [next_action] asks for manual intervention.  The only edge out of
    orchestration leads to [END], so the run ends there; [retry_count] and
    [workflow_step] are left as they were. *)
Theorem incomplete_workflow_leaves_hint (w : World) (st : AgentState) :
  OrchestratorAgent.is_complete
    (OrchestratorAgent._validate_workflow_completion st) = false →
  errors (OrchestratorAgent.__call__ w st)
  = errors st
      ++ ["Workflow incomplete. Missing: "
            +:+ join ", " (OrchestratorAgent.missing_components
                             (OrchestratorAgent._validate_workflow_completion st))]
  ∧ next_target orchestration (OrchestratorAgent.__call__ w st) = END
  ∧ retry_count (OrchestratorAgent.__call__ w st) = retry_count st
  ∧ workflow_step (OrchestratorAgent.__call__ w st) = workflow_step st
  ∧ (learner_profile st = None →
     next_action (OrchestratorAgent.__call__ w st) = "restart_profile_analysis"
     ∧ current_agent (OrchestratorAgent.__call__ w st) = "ProfileAnalysisAgent")
  ∧ (learner_profile st ≠ None → generated_content st = [] →
     next_action (OrchestratorAgent.__call__ w st) = "restart_content_generation"
     ∧ current_agent (OrchestratorAgent.__call__ w st) = "ContentGeneratorAgent")
  ∧ (learner_profile st ≠ None → generated_content st ≠ [] →
     quiz_questions st = [] →
     next_action (OrchestratorAgent.__call__ w st)
     = "restart_assessment_generation"
     ∧ current_agent (OrchestratorAgent.__call__ w st) = "AssessmentAgent")
  ∧ (learner_profile st ≠ None → generated_content st ≠ [] →
     quiz_questions st ≠ [] →
     should_continue (OrchestratorAgent.__call__ w st) = false
     ∧ next_action (OrchestratorAgent.__call__ w st)
       = "manual_intervention_required"
     ∧ current_agent (OrchestratorAgent.__call__ w st) = current_agent st).
Proof.
  intros Hinc.
  unfold OrchestratorAgent.__call__, try_except, OrchestratorAgent.body,
    mbind, M_bind, gets, modify.
  rewrite Hinc. simpl.
  unfold OrchestratorAgent._handle_incomplete_workflow,
    OrchestratorAgent._validate_workflow_completion,
    OrchestratorAgent.required_components, errors_append in *.
  destruct (learner_profile st), (learning_objectives st),
    (generated_content st), (quiz_questions st), (learning_path_id st);
    simpl in *; try discriminate;
    repeat split; intros; congruence.
Qed.

Lemma incomplete_workflow_leaves_hint_witness :
  OrchestratorAgent.is_complete
    (OrchestratorAgent._validate_workflow_completion Sample.after_path) = false
  ∧ next_target orchestration
      (OrchestratorAgent.__call__ Sample.garbled Sample.after_path) = END
  ∧ retry_count (OrchestratorAgent.__call__ Sample.garbled Sample.after_path)
    = retry_count Sample.after_path.
Proof.
  split; [reflexivity|].
  destruct (incomplete_workflow_leaves_hint Sample.garbled Sample.after_path
              eq_refl) as (_ & Hend & Hrc & _).
  split; [exact Hend|exact Hrc].
Defined.

(** C5, as stated, fails: orchestration reached with [generated_content]
    empty (here, right after path planning) names content generation in
    [next_action] and [current_agent], and the graph goes to [END]; content
    generation is not invoked again. *)
Lemma orchestration_does_not_route_back :
  generated_content Sample.after_path = []
  ∧ next_action (OrchestratorAgent.__call__ Sample.garbled Sample.after_path)
    = "restart_content_generation"
  ∧ next_target orchestration
      (OrchestratorAgent.__call__ Sample.garbled Sample.after_path) = END
  ∧ next_target orchestration
      (OrchestratorAgent.__call__ Sample.garbled Sample.after_path)
    ≠ To content_generation.
Proof. vm_compute. repeat split; congruence. Qed.

(** ** The result record *)

(** C6 (amended).  For every learner-profile dictionary, [run_workflow_sync]
    returns a result record with a success flag whatever the graph execution
    returns or raises.  When the graph returns a final state whose [errors]
    list is non-empty, the record has success false, that full list under
    ["errors"] and the final state's [generated_content], [quiz_questions]
    and [learning_objectives] as partial results.  When the graph execution
    itself raises, the record has success false, the text of the exception
    under ["error"], no ["errors"] list, and as partial results the
    initial-state dictionary as the execution left it. *)
Theorem run_workflow_sync_result
    (invoke : AgentState → result AgentState * AgentState)
    (w : World) (learner_profile : Profile) :
  match invoke (_create_initial_state w learner_profile) with
  | (Ok final_state, _) =>
      (errors final_state ≠ [] →
       run_workflow_sync invoke w learner_profile
       = Failed (errors final_state)
           {| pr_generated_content := generated_content final_state;
              pr_quiz_questions := quiz_questions final_state;
              pr_learning_objectives := learning_objectives final_state |})
      ∧ (success (run_workflow_sync invoke w learner_profile) = false
         ↔ errors final_state ≠ [])
      ∧ (result_errors (run_workflow_sync invoke w learner_profile)
         = if nonempty (errors final_state) then Some (errors final_state)
           else None)
  | (Raise e, left_in_initial_state) =>
      run_workflow_sync invoke w learner_profile
      = Crashed e left_in_initial_state
      ∧ success (run_workflow_sync invoke w learner_profile) = false
      ∧ result_errors (run_workflow_sync invoke w learner_profile) = None
  end.
Proof.
  unfold run_workflow_sync.
  destruct (invoke _) as [[final_state | e] left]; [|by repeat split].
  unfold _extract_workflow_results.
  destruct (errors final_state) eqn:E; simpl.
  - repeat split; congruence.
  - repeat split; congruence.
Qed.

(** C6, as stated, fails: a run in which the profile, path and content
    stages complete and assessment keeps failing until the executor gives up
    returns a record with success false that holds neither an ["errors"]
    list nor the learning objectives and contents the run had produced. *)
Lemma crashed_run_drops_partial_outputs :
  (∃ n st k,
      run 25 Sample.down_after_three 0 entry_point Sample.initial
      = Unfinished n st k
      ∧ length (errors st) = 22%nat
      ∧ length (learning_objectives st) = 3%nat
      ∧ length (generated_content st) = 3%nat)
  ∧ ∃ e partial,
      run_workflow_sync (Sample.invoke_with_limit 25 Sample.down_after_three)
        Sample.garbled Sample.alice
      = Crashed e partial
      ∧ success (Crashed e partial) = false
      ∧ result_errors (Crashed e partial) = None
      ∧ learning_objectives partial = []
      ∧ generated_content partial = [].
Proof.
  split.
  - eexists _, _, _. vm_compute. repeat split.
  - eexists _, _. vm_compute. repeat split.
Qed.

(** ** A failing generator *)

Lemma for_each_length {A B} (f : nat → A → result B) i l ys :
  for_each f i l = Ok ys → length ys = length l.
Proof.
  revert i ys. induction l as [|x l IH]; intros i ys; simpl.
  - by intros [= <-].
  - destruct (f i x); [|discriminate].
    destruct (for_each f (S i) l) eqn:E; [|discriminate].
    intros [= <-]. simpl. f_equal. by eapply IH.
Qed.

Lemma for_each_total {A B} (f : nat → A → result B) (P : A → Prop) i l :
  (∀ j x, P x → ∃ y, f j x = Ok y) →
  Forall P l → ∃ ys, for_each f i l = Ok ys.
Proof.
  intros Hf Hl. revert i. induction Hl as [|x l Hx _ IH]; intros i; simpl.
  - eauto.
  - destruct (Hf i x Hx) as [y ->]. destruct (IH (S i)) as [ys ->]. eauto.
Qed.

Lemma generate_one_falls_back (w : World) (st : AgentState) i c :
  is_task c →
  llm_content w i = LLMUnparseable →
  llm_visual w i = LLMUnparseable →
  ∃ y, ContentGeneratorAgent.generate_one w st i c = Ok y.
Proof.
  destruct c; simpl; try done. intros _ Hc Hv.
  unfold ContentGeneratorAgent.generate_one,
    ContentGeneratorAgent._generate_content,
    ContentGeneratorAgent._generate_visual_example,
    ContentGeneratorAgent._enhance_with_multimedia, mbind, result_bind,
    mret, result_ret.
  rewrite Hc, Hv. simpl.
  destruct (String.eqb (learning_style st) "visual"); simpl; [eauto|].
  destruct (String.eqb (learning_style st) "auditory"); simpl; [eauto|].
  destruct (String.eqb (learning_style st) "kinesthetic"); simpl; eauto.
Qed.







(** A parsed reply that lacks a key the profile stage reads is the one case
    in which an output is written before the error is recorded. *)
Lemma truncated_analysis_is_half_written :
  errors (ProfileAnalysisAgent.__call__ Sample.truncated Sample.initial)
  = ["Profile analysis failed: 'recommended_difficulty'"]
  ∧ learning_objectives
      (ProfileAnalysisAgent.__call__ Sample.truncated Sample.initial)
    = ["Solve linear equations"]
  ∧ difficulty_level
      (ProfileAnalysisAgent.__call__ Sample.truncated Sample.initial)
    = difficulty_level Sample.initial
  ∧ weak_areas (ProfileAnalysisAgent.__call__ Sample.truncated Sample.initial)
    = weak_areas Sample.initial.
Proof. vm_compute. repeat split. Qed.

(** ** Assessment generation with a model that keeps raising *)






(** * Further properties of the stage code *)

(** ** The message log as a mailbox *)

Lemma find_reverse_snoc {A} (f : A → bool) (l : list A) (x : A) :
  List.find f (reverse (l ++ [x]))
  = if f x then Some x else List.find f (reverse l).
Proof. by rewrite reverse_snoc. Qed.

Lemma latest_message_found (st : AgentState) (ty : string) (m : Message) :
  PathPlannerAgent._get_latest_message st ty = Some m →
  ∃ older newer,
    messages st = older ++ m :: newer
    ∧ m_type m = ty
    ∧ Forall (λ m', m_type m' ≠ ty) newer.
Proof.
  unfold PathPlannerAgent._get_latest_message.
  induction (messages st) as [|x l IH] using rev_ind; [done|].
  rewrite find_reverse_snoc.
  destruct (String.eqb (m_type x) ty) eqn:E.
  - intros [= ->]. exists l, []. apply String.eqb_eq in E. by repeat split.
  - intros H. destruct (IH H) as (older & newer & -> & Hty & Hnew).
    exists older, (newer ++ [x]). rewrite <- (assoc_L (++)). simpl.
    repeat split; [done|]. apply Forall_app. split; [done|].
    apply Forall_singleton. by apply String.eqb_neq.
Qed.

Lemma latest_message_absent (st : AgentState) (ty : string) :
  PathPlannerAgent._get_latest_message st ty = None →
  Forall (λ m', m_type m' ≠ ty) (messages st).
Proof.
  unfold PathPlannerAgent._get_latest_message.
  induction (messages st) as [|x l IH] using rev_ind; [done|].
  rewrite find_reverse_snoc.
  destruct (String.eqb (m_type x) ty) eqn:E; [done|].
  intros H. apply Forall_app. split; [by apply IH|].
  apply Forall_singleton. by apply String.eqb_neq.
Qed.

(** X1.  [_get_latest_message] is a last-write-wins lookup in the message
    log: appending a message makes it the answer for its own type and leaves
    the answer for every other type as it was; an answer is a message of
    the log that has the requested type and is followed by no message of
    that type; and there is no answer only when the log holds no message of
    that type. *)
Theorem latest_message_is_last_write (st : AgentState) (m : Message)
    (ty : string) :
  PathPlannerAgent._get_latest_message (messages_append m st) (m_type m)
  = Some m
  ∧ (m_type m ≠ ty →
     PathPlannerAgent._get_latest_message (messages_append m st) ty
     = PathPlannerAgent._get_latest_message st ty)
  ∧ (∀ found,
        PathPlannerAgent._get_latest_message st ty = Some found →
        ∃ older newer,
          messages st = older ++ found :: newer
          ∧ m_type found = ty
          ∧ Forall (λ m', m_type m' ≠ ty) newer)
  ∧ (PathPlannerAgent._get_latest_message st ty = None →
     Forall (λ m', m_type m' ≠ ty) (messages st)).
Proof.
  split; [|split; [|split]].
  - unfold PathPlannerAgent._get_latest_message, messages_append. simpl.
    by rewrite find_reverse_snoc, String.eqb_refl.
  - intros Hne. unfold PathPlannerAgent._get_latest_message, messages_append.
    simpl. rewrite find_reverse_snoc.
    by apply String.eqb_neq in Hne as ->.
  - intros found. apply latest_message_found.
  - apply latest_message_absent.
Qed.

(** ** Loops that may raise *)

Lemma for_each_Forall2 {A B} (f : nat → A → result B) i l ys :
  for_each f i l = Ok ys →
  Forall2 (λ x y, ∃ j, f j x = Ok y) l ys.
Proof.
  revert i ys. induction l as [|x l IH]; intros i ys; simpl.
  - intros [= <-]. constructor.
  - destruct (f i x) as [y|] eqn:Ef; [|discriminate].
    destruct (for_each f (S i) l) as [ys'|] eqn:E; [|discriminate].
    intros [= <-]. constructor; eauto.
Qed.

Lemma for_each_lookup {A B} (f : nat → A → result B) i l ys j y :
  for_each f i l = Ok ys →
  ys !! j = Some y →
  ∃ x, l !! j = Some x ∧ f (i + j)%nat x = Ok y.
Proof.
  revert i ys j. induction l as [|x l IH]; intros i ys j; simpl.
  - intros [= <-]. done.
  - destruct (f i x) as [y0|] eqn:Ef; [|discriminate].
    destruct (for_each f (S i) l) as [ys'|] eqn:E; [|discriminate].
    intros [= <-]. destruct j as [|j]; simpl.
    + intros [= <-]. exists x. by rewrite Nat.add_0_r.
    + intros Hy. destruct (IH _ _ _ E Hy) as (x' & Hx & Hf).
      exists x'. split; [done|]. by replace (i + S j)%nat with (S i + j)%nat by lia.
Qed.

Lemma for_each_raises {A B} (f : nat → A → result B) i l e :
  for_each f i l = Raise e →
  ∃ j x, l !! j = Some x ∧ f (i + j)%nat x = Raise e.
Proof.
  revert i. induction l as [|x l IH]; intros i; simpl; [done|].
  destruct (f i x) as [y0|e0] eqn:Ef.
  - destruct (for_each f (S i) l) as [ys'|e1] eqn:E; [done|].
    intros [= ->]. destruct (IH _ E) as (j & x' & Hx & Hf).
    exists (S j), x'. split; [done|].
    by replace (i + S j)%nat with (S i + j)%nat by lia.
  - intros [= ->]. exists 0%nat, x. by rewrite Nat.add_0_r.
Qed.

Lemma Forall2_left {A B} (R : A → B → Prop) (P : A → Prop) l k :
  Forall2 R l k → (∀ x y, R x y → P x) → Forall P l.
Proof. induction 1; intros H'; constructor; eauto. Qed.

Lemma Forall2_right {A B} (R : A → B → Prop) (P : B → Prop) l k :
  Forall2 R l k → (∀ x y, R x y → P y) → Forall P k.
Proof. induction 1; intros H'; constructor; eauto. Qed.

(** ** From a learning path to tasks *)

Lemma task_of_resource_ok (w : World) (st : AgentState) i r t :
  PathPlannerAgent.task_of_resource w st i r = Ok t →
  complete_resource r
  ∧ r_id r = Some (t_resource_id t)
  ∧ r_type r = Some (t_content_type t)
  ∧ r_topic r = Some (t_topic t)
  ∧ r_title r = Some (t_title t)
  ∧ r_difficulty r = Some (t_difficulty t)
  ∧ r_duration_minutes r = Some (t_duration t)
  ∧ r_learning_objectives r = Some (t_objectives t)
  ∧ r_description r = Some (t_description t)
  ∧ t_learning_style t = learning_style st
  ∧ t_task_type t = "content_generation"
  ∧ t_status t = "pending".
Proof.
  unfold PathPlannerAgent.task_of_resource, complete_resource, mbind,
    result_bind, subscript, mret, result_ret.
  destruct (r_id r), (r_type r), (r_topic r), (r_title r), (r_difficulty r),
    (r_duration_minutes r), (r_learning_objectives r), (r_description r);
    try discriminate.
  intros [= <-]. simpl. repeat split; eauto.
Qed.

Lemma task_of_resource_complete (w : World) (st : AgentState) i r :
  complete_resource r → ∃ t, PathPlannerAgent.task_of_resource w st i r = Ok t.
Proof.
  unfold PathPlannerAgent.task_of_resource, complete_resource, mbind,
    result_bind, subscript, mret, result_ret.
  intros ([? ->] & [? ->] & [? ->] & [? ->] & [? ->] & [? ->] & [? ->] & [? ->]).
  eauto.
Qed.

Lemma learning_tasks_of_resources (w : World) (lp : LearningPath)
    (st : AgentState) (tasks : list Task) :
  PathPlannerAgent._generate_learning_tasks w lp st = Ok tasks →
  ∃ resources,
    lp_resources lp = Some resources
    ∧ Forall2 (λ r t, r_id r = Some (t_resource_id t)
                      ∧ r_title r = Some (t_title t)) resources tasks.
Proof.
  unfold PathPlannerAgent._generate_learning_tasks, mbind, result_bind,
    subscript.
  destruct (lp_resources lp) as [resources|]; [|done].
  intros Ht. exists resources. split; [done|].
  apply for_each_Forall2 in Ht.
  induction Ht as [|r t rs ts [j Hj] _ IH]; constructor; [|done].
  destruct (task_of_resource_ok _ _ _ _ _ Hj) as (_ & ? & _ & _ & ? & _).
  by split.
Qed.

(** X2.  [_generate_learning_tasks] succeeds exactly when the learning path
    has a ["resources"] key and every resource has the eight keys that are
    read ([prerequisites] is not one of them); otherwise it raises a
    [KeyError].  On success there is one task per resource, in the order of
    the resources, and each task carries the id, type, topic, title,
    difficulty, duration, objectives and description of its resource, the
    learner's learning style, and the status ["pending"]. *)
Theorem learning_tasks_mirror_resources (w : World) (lp : LearningPath)
    (st : AgentState) :
  ((∃ tasks, PathPlannerAgent._generate_learning_tasks w lp st = Ok tasks)
   ↔ ∃ resources,
       lp_resources lp = Some resources ∧ Forall complete_resource resources)
  ∧ (∀ tasks,
        PathPlannerAgent._generate_learning_tasks w lp st = Ok tasks →
        ∃ resources,
          lp_resources lp = Some resources
          ∧ Forall2 (λ r t,
               r_id r = Some (t_resource_id t)
               ∧ r_type r = Some (t_content_type t)
               ∧ r_topic r = Some (t_topic t)
               ∧ r_title r = Some (t_title t)
               ∧ r_difficulty r = Some (t_difficulty t)
               ∧ r_duration_minutes r = Some (t_duration t)
               ∧ r_learning_objectives r = Some (t_objectives t)
               ∧ r_description r = Some (t_description t)
               ∧ t_learning_style t = learning_style st
               ∧ t_status t = "pending") resources tasks)
  ∧ (lp_resources lp = None →
     PathPlannerAgent._generate_learning_tasks w lp st
     = Raise (KeyError "resources")).
Proof.
  unfold PathPlannerAgent._generate_learning_tasks, mbind, result_bind,
    subscript.
  destruct (lp_resources lp) as [resources|]; [|split; [|split]].
  - split; [|split]; [|..|done].
    + split.
      * intros [tasks Ht]. exists resources. split; [done|].
        apply for_each_Forall2 in Ht.
        induction Ht as [|r t rs ts [j Hj] _ IH]; constructor; [|done].
        by apply task_of_resource_ok in Hj as [? _].
      * intros (rs & [= <-] & Hall).
        apply (for_each_total _ complete_resource); [|done].
        intros j r. apply task_of_resource_complete.
    + intros tasks Ht. exists resources. split; [done|].
      apply for_each_Forall2 in Ht.
      induction Ht as [|r t rs ts [j Hj] _ IH]; constructor; [|done].
      destruct (task_of_resource_ok _ _ _ _ _ Hj)
        as (_ & ? & ? & ? & ? & ? & ? & ? & ? & ? & _ & ?).
      by repeat split.
  - split; [by intros [? ?]|by intros (? & ? & ?)].
  - by intros.
  - done.
Qed.

(** ** Tasks posted by the path planner and read by the content generator *)

Lemma content_tasks_app (st : AgentState) (new : list Message) :
  ContentGeneratorAgent._get_content_tasks
    (set_messages (messages st ++ new) st)
  = ContentGeneratorAgent._get_content_tasks st
    ++ (m_content <$>
          List.filter (λ m, String.eqb (m_receiver m)
                              ContentGeneratorAgent.agent_name
                            && String.eqb (m_type m) "content_generation_task")
            new).
Proof.
  unfold ContentGeneratorAgent._get_content_tasks. simpl.
  by rewrite List.filter_app, fmap_app.
Qed.

Lemma task_messages_are_read_back (w : World) (tasks : list Task) :
  m_content <$>
    List.filter (λ m, String.eqb (m_receiver m) ContentGeneratorAgent.agent_name
                      && String.eqb (m_type m) "content_generation_task")
      (imap (PathPlannerAgent.task_message w) tasks)
  = TaskContent <$> tasks.
Proof.
  assert (∀ g : nat → Task → Message,
            (∀ i t, ∃ ts, g i t = {| m_sender := PathPlannerAgent.agent_name;
                                     m_receiver := "ContentGeneratorAgent";
                                     m_type := "content_generation_task";
                                     m_content := TaskContent t;
                                     m_timestamp := ts |}) →
            m_content <$>
              List.filter (λ m, String.eqb (m_receiver m)
                                  ContentGeneratorAgent.agent_name
                                && String.eqb (m_type m) "content_generation_task")
                (imap g tasks)
            = TaskContent <$> tasks) as H.
  { induction tasks as [|t tasks IH]; intros g Hg; simpl; [done|].
    destruct (Hg 0%nat t) as [ts ->]. simpl. f_equal.
    apply IH. intros i t'. apply Hg. }
  apply H. intros i t. eexists. reflexivity.
Qed.

(** X3.  The tasks the path planner posts are what the content generator
    reads: an invocation of the path planner either records an error and
    leaves the log alone, or (the analysis being there) appends one task per
    planned resource, so that [_get_content_tasks] afterwards returns the
    tasks it returned before followed by the new ones, in the order of
    [current_resources].  Tasks of an earlier attempt are never withdrawn. *)
Theorem planned_tasks_reach_the_content_generator (w : World) (st : AgentState) :
  (∃ d, errors (PathPlannerAgent.__call__ w st) = errors st ++ [d]
        ∧ messages (PathPlannerAgent.__call__ w st) = messages st
        ∧ ContentGeneratorAgent._get_content_tasks
            (PathPlannerAgent.__call__ w st)
          = ContentGeneratorAgent._get_content_tasks st)
  ∨ (errors (PathPlannerAgent.__call__ w st) = errors st
     ∧ ∃ tasks,
         Forall2 (λ r t, r_id r = Some (t_resource_id t)
                         ∧ r_title r = Some (t_title t))
           (current_resources (PathPlannerAgent.__call__ w st)) tasks
         ∧ ContentGeneratorAgent._get_content_tasks
             (PathPlannerAgent.__call__ w st)
           = ContentGeneratorAgent._get_content_tasks st
             ++ (TaskContent <$> tasks)).
Proof.
  unfold PathPlannerAgent.__call__, try_except, PathPlannerAgent.body,
    PathPlannerAgent.handler, PathPlannerAgent.no_analysis,
    mbind, M_bind, gets, modify, lift, errors_append.
  destruct (PathPlannerAgent._get_latest_message st _) as [pm|]; simpl;
    [|left; eauto].
  destruct (PathPlannerAgent._create_learning_path w st _) as [lp|e]; simpl;
    [|left; eauto].
  destruct (PathPlannerAgent._generate_learning_tasks w lp st) as [tasks|e]
    eqn:Et; simpl; [|left; eauto].
  destruct (learning_tasks_of_resources w lp st tasks Et)
    as (resources & Hres & Hall).
  rewrite Hres. simpl. right. split; [done|]. exists tasks. split.
  - exact Hall.
  - unfold ContentGeneratorAgent._get_content_tasks. simpl.
    rewrite List.filter_app, fmap_app. f_equal.
    apply task_messages_are_read_back.
Qed.

Lemma other_stages_append_no_task (n : Node) (w : World) (st : AgentState) :
  n ≠ path_planning →
  ∃ new,
    messages (node_agent n w st) = messages st ++ new
    ∧ Forall (λ m, m_type m ≠ "content_generation_task") new.
Proof.
  intros Hn.
  destruct n; try done; agent_cases;
    first [ by (exists []; rewrite (right_id_L [] (++)))
          | eexists [_]; split; [reflexivity|];
            apply Forall_singleton; simpl; discriminate ].
Qed.

Lemma content_tasks_kept (n : Node) (w : World) (st : AgentState) :
  n ≠ path_planning →
  ContentGeneratorAgent._get_content_tasks (node_agent n w st)
  = ContentGeneratorAgent._get_content_tasks st.
Proof.
  intros Hn.
  destruct (other_stages_append_no_task n w st Hn) as (new & Hm & Hnew).
  unfold ContentGeneratorAgent._get_content_tasks.
  rewrite Hm, List.filter_app, fmap_app.
  assert (List.filter
            (λ m, String.eqb (m_receiver m) ContentGeneratorAgent.agent_name
                  && String.eqb (m_type m) "content_generation_task") new = [])
    as ->.
  { clear Hm. induction Hnew as [|m new Hm' _ IH]; simpl; [done|].
    apply String.eqb_neq in Hm' as ->. rewrite andb_false_r. exact IH. }
  simpl. by rewrite app_nil_r.
Qed.

(** X4.  Only the path planner adds content-generation tasks: an invocation
    of any other stage leaves [_get_content_tasks] as it was, whatever the
    stage appends to the log. *)
Theorem other_stages_post_no_task (n : Node) (w : World) (st : AgentState) :
  n ≠ path_planning →
  ContentGeneratorAgent._get_content_tasks (node_agent n w st)
  = ContentGeneratorAgent._get_content_tasks st
  ∧ ∃ new,
      messages (node_agent n w st) = messages st ++ new
      ∧ Forall (λ m, m_type m ≠ "content_generation_task") new.
Proof.
  intros Hn. split; [by apply content_tasks_kept|].
  by apply other_stages_append_no_task.
Qed.

Lemma other_stages_post_no_task_witness :
  profile_analysis ≠ path_planning
  ∧ ContentGeneratorAgent._get_content_tasks
      (node_agent profile_analysis Sample.garbled Sample.initial)
    = ContentGeneratorAgent._get_content_tasks Sample.initial.
Proof.
  assert (H : profile_analysis ≠ path_planning) by discriminate.
  split; [exact H|].
  exact (proj1 (other_stages_post_no_task profile_analysis Sample.garbled
                  Sample.initial H)).
Defined.

(** ** What the content and assessment stages produce *)

Lemma snoc_neq {A} (l : list A) (x : A) : l ++ [x] ≠ l.
Proof.
  intros H. apply (f_equal length) in H. rewrite length_app in H.
  simpl in H. lia.
Qed.

Lemma generate_one_ok (w : World) (st : AgentState) i task c :
  ContentGeneratorAgent.generate_one w st i task = Ok c →
  is_task task
  ∧ c_generated_by c = Some ContentGeneratorAgent.agent_name
  ∧ is_Some (c_created_at c)
  ∧ (learning_style st = "visual" →
     is_Some (c_visual_example c)
     ∧ ∃ title, c_title c = Some title
                ∧ c_youtube_search_query c
                  = Some (title +:+ " tutorial visual explanation")).
Proof.
  unfold ContentGeneratorAgent.generate_one,
    ContentGeneratorAgent._generate_content,
    ContentGeneratorAgent._generate_visual_example,
    ContentGeneratorAgent._enhance_with_multimedia,
    mbind, result_bind, mret, result_ret, subscript.
  destruct task; try discriminate.
  destruct (String.eqb (learning_style st) "visual") eqn:Ev.
  - destruct (llm_content w i), (llm_visual w i); simpl;
      try discriminate;
      try (destruct (c_title _) eqn:Et; simpl; [|discriminate]);
      intros [= <-]; simpl; repeat split; eauto.
  - apply String.eqb_neq in Ev.
    destruct (llm_content w i); simpl; try discriminate;
      destruct (String.eqb (learning_style st) "auditory"),
        (String.eqb (learning_style st) "kinesthetic"); simpl;
      try (destruct (c_title _) eqn:Et; simpl; [|discriminate]);
      intros [= <-]; simpl; repeat split; eauto; done.
Qed.

(** X5.  When the content stage has tasks and records no error, it has
    produced exactly one content record per task, each stamped with
    [generated_by] and [created_at]; the count it announces to the
    assessment stage is that number; and for a visual learner every record
    has a visual example, a title and the search query built from the
    title. *)
Theorem generated_content_matches_tasks (w : World) (st : AgentState) :
  ContentGeneratorAgent._get_content_tasks st ≠ [] →
  errors (ContentGeneratorAgent.__call__ w st) = errors st →
  length (generated_content (ContentGeneratorAgent.__call__ w st))
  = length (ContentGeneratorAgent._get_content_tasks st)
  ∧ Forall is_task (ContentGeneratorAgent._get_content_tasks st)
  ∧ (∃ m, messages (ContentGeneratorAgent.__call__ w st) = messages st ++ [m]
          ∧ m_receiver m = "AssessmentAgent"
          ∧ m_content m
            = GeneratedCount
                (length (generated_content (ContentGeneratorAgent.__call__ w st))))
  ∧ Forall (λ c, c_generated_by c = Some ContentGeneratorAgent.agent_name
                 ∧ is_Some (c_created_at c)
                 ∧ (learning_style st = "visual" →
                    is_Some (c_visual_example c)
                    ∧ ∃ title, c_title c = Some title
                               ∧ c_youtube_search_query c
                                 = Some (title +:+ " tutorial visual explanation")))
      (generated_content (ContentGeneratorAgent.__call__ w st)).
Proof.
  unfold ContentGeneratorAgent.__call__, try_except,
    ContentGeneratorAgent.body, ContentGeneratorAgent.handler,
    mbind, M_bind, gets, modify, errors_append, messages_append.
  simpl. intros Hne.
  destruct (ContentGeneratorAgent._get_content_tasks st) as [|t ts] eqn:Et;
    [congruence|].
  destruct (for_each (ContentGeneratorAgent.generate_one w st) 0 (t :: ts))
    as [ys|e] eqn:Ef; simpl; [|by intros ?%snoc_neq].
  intros _. pose proof (for_each_length _ _ _ _ Ef) as Hlen.
  pose proof (for_each_Forall2 _ _ _ _ Ef) as Hall.
  split; [done|]. split; [|split].
  - apply (Forall2_left _ _ _ _ Hall).
    intros x y [j Hj]. by apply generate_one_ok in Hj as [? _].
  - eexists. split; [reflexivity|]. by split.
  - apply (Forall2_right _ _ _ _ Hall).
    intros x y [j Hj]. by apply generate_one_ok in Hj as (_ & ? & ? & ?).
Qed.

Lemma generated_content_matches_tasks_witness :
  ContentGeneratorAgent._get_content_tasks Sample.after_path ≠ []
  ∧ errors (ContentGeneratorAgent.__call__ Sample.garbled Sample.after_path)
    = errors Sample.after_path
  ∧ length (generated_content
              (ContentGeneratorAgent.__call__ Sample.garbled Sample.after_path))
    = length (ContentGeneratorAgent._get_content_tasks Sample.after_path).
Proof.
  assert (H1 : ContentGeneratorAgent._get_content_tasks Sample.after_path ≠ [])
    by (vm_compute; discriminate).
  assert (H2 : errors (ContentGeneratorAgent.__call__ Sample.garbled
                         Sample.after_path) = errors Sample.after_path)
    by (vm_compute; reflexivity).
  split; [exact H1|]. split; [exact H2|].
  exact (proj1 (generated_content_matches_tasks Sample.garbled
                  Sample.after_path H1 H2)).
Defined.

Lemma quiz_questions_ok (w : World) (st : AgentState) i content qs :
  AssessmentAgent._generate_quiz_questions w i content st = Ok qs →
  Forall (λ q, q_learner_id q = Some (learner_id st)
               ∧ q_resource_id q = c_id content
               ∧ is_Some (q_id q) ∧ is_Some (q_created_at q)) qs.
Proof.
  unfold AssessmentAgent._generate_quiz_questions.
  destruct (llm_quiz w i) as [e| |questions]; [done|..]; intros [= <-].
  - repeat constructor; simpl; eauto.
  - assert (∀ (g : nat → string) (h : nat → string),
              Forall (λ q, q_learner_id q = Some (learner_id st)
                           ∧ q_resource_id q = c_id content
                           ∧ is_Some (q_id q) ∧ is_Some (q_created_at q))
                (imap (λ j, question_add_metadata (g j) (c_id content) (h j)
                              (learner_id st)) questions)) as H.
    { induction questions as [|q questions IH]; intros g h; simpl;
        constructor; [simpl; eauto|].
      apply (IH (g ∘ S) (h ∘ S)). }
    apply (H (uuid4 w "question" i) (utcnow w "question" i)).
Qed.

(** X6.  When the assessment stage has content and records no error, every
    quiz question it stores, whether it comes from the model's reply or from
    the fallback, carries the learner's id, an id and a creation time of its
    own, and the id of one of the content records as [resource_id]; the
    count announced to the orchestrator is the number of stored questions;
    and [should_continue] is set. *)
Theorem quiz_questions_carry_metadata (w : World) (st : AgentState) :
  generated_content st ≠ [] →
  errors (AssessmentAgent.__call__ w st) = errors st →
  Forall (λ q, q_learner_id q = Some (learner_id st)
               ∧ is_Some (q_id q) ∧ is_Some (q_created_at q)
               ∧ ∃ c, c ∈ generated_content st ∧ q_resource_id q = c_id c)
    (quiz_questions (AssessmentAgent.__call__ w st))
  ∧ (∃ m strategy,
        messages (AssessmentAgent.__call__ w st) = messages st ++ [m]
        ∧ m_receiver m = "OrchestratorAgent"
        ∧ m_content m
          = AssessmentSummary
              (length (quiz_questions (AssessmentAgent.__call__ w st)))
              strategy
        ∧ progress_data (AssessmentAgent.__call__ w st)
            !! "assessment_strategy" = Some strategy)
  ∧ should_continue (AssessmentAgent.__call__ w st) = true.
Proof.
  unfold AssessmentAgent.__call__, try_except, AssessmentAgent.body,
    AssessmentAgent.handler, mbind, M_bind, gets, modify,
    errors_append, messages_append.
  simpl. intros Hne.
  destruct (generated_content st) as [|c cs] eqn:Ec; [congruence|].
  destruct (for_each _ 0 (c :: cs)) as [ys|e] eqn:Ef; simpl;
    [|by intros ?%snoc_neq].
  destruct (AssessmentAgent._create_assessment_strategy st) as [strategy|e];
    simpl; [|by intros ?%snoc_neq].
  intros _. split; [|split; [|done]].
  - apply for_each_Forall2 in Ef. apply Forall_concat.
    assert (∀ l k,
              Forall2 (λ x y, ∃ j, AssessmentAgent._generate_quiz_questions
                                     w j x st = Ok y) l k →
              Forall (Forall (λ q, q_learner_id q = Some (learner_id st)
                                   ∧ is_Some (q_id q) ∧ is_Some (q_created_at q)
                                   ∧ ∃ c, c ∈ l ∧ q_resource_id q = c_id c)) k)
      as H; [|by apply H].
    induction 1 as [|x y l k [j Hj] _ IH]; constructor.
    + apply quiz_questions_ok in Hj. eapply Forall_impl; [exact Hj|].
      intros q (? & ? & ? & ?). repeat split; try done.
      exists x. split; [apply list_elem_of_here|done].
    + eapply Forall_impl; [exact IH|].
      intros qs Hqs. eapply Forall_impl; [exact Hqs|].
      intros q (? & ? & ? & c' & Hc' & ?). repeat split; try done.
      exists c'. split; [by apply list_elem_of_further|done].
  - eexists _, strategy. split; [reflexivity|]. split; [done|].
    split; [done|]. apply lookup_insert_eq.
Qed.

Lemma quiz_questions_carry_metadata_witness :
  generated_content Sample.after_content ≠ []
  ∧ errors (AssessmentAgent.__call__ Sample.garbled Sample.after_content)
    = errors Sample.after_content
  ∧ should_continue
      (AssessmentAgent.__call__ Sample.garbled Sample.after_content) = true.
Proof.
  assert (H1 : generated_content Sample.after_content ≠ [])
    by (vm_compute; discriminate).
  assert (H2 : errors (AssessmentAgent.__call__ Sample.garbled
                         Sample.after_content) = errors Sample.after_content)
    by (vm_compute; reflexivity).
  split; [exact H1|]. split; [exact H2|].
  exact (proj2 (proj2 (quiz_questions_carry_metadata Sample.garbled
                         Sample.after_content H1 H2))).
Defined.

(** ** A stage whose input is missing *)

Lemma missing_precondition_once (n : Node) (w : World) (st : AgentState) :
  precondition_missing n st →
  errors (node_agent n w st) = errors st ++ [precondition_error n]
  ∧ retry_count (node_agent n w st) = retry_count st
  ∧ messages (node_agent n w st) = messages st
  ∧ stage_outputs n (node_agent n w st) = stage_outputs n st
  ∧ precondition_missing n (node_agent n w st).
Proof.
  destruct n; simpl; try done.
  - intros H.
    unfold ProfileAnalysisAgent.__call__, try_except,
      ProfileAnalysisAgent.body, mbind, M_bind, gets.
    simpl. destruct H as [E | (p & E & Hp)]; rewrite E, ?Hp; simpl;
      repeat split; eauto.
  - intros H.
    unfold PathPlannerAgent.__call__, try_except, PathPlannerAgent.body,
      mbind, M_bind, gets.
    rewrite H. done.
  - intros H.
    unfold AssessmentAgent.__call__, try_except, AssessmentAgent.body,
      mbind, M_bind, gets.
    simpl. rewrite H. done.
Qed.

(** X7.  A stage that finds its input missing (no learner profile for
    profile analysis, no analysis message for path planning, no content for
    assessment generation) records its error and nothing else: however many
    times it is invoked, each invocation appends the same error,
    [retry_count] stays where it was, the log and the stage's outputs are
    untouched and the input is still missing; so while [retry_count] is
    below 3 the router of the stage keeps answering [retry]. *)
Theorem missing_precondition_is_never_counted (n : Node)
    (worlds : list World) (st : AgentState) :
  precondition_missing n st →
  errors (invocations (repeated n worlds) st)
  = errors st ++ replicate (length worlds) (precondition_error n)
  ∧ retry_count (invocations (repeated n worlds) st) = retry_count st
  ∧ messages (invocations (repeated n worlds) st) = messages st
  ∧ stage_outputs n (invocations (repeated n worlds) st) = stage_outputs n st
  ∧ precondition_missing n (invocations (repeated n worlds) st)
  ∧ (worlds ≠ [] → retry_count st < 3 →
     ∀ route, router n = Some route →
              route (invocations (repeated n worlds) st) = v_retry).
Proof.
  intros H.
  assert (errors (invocations (repeated n worlds) st)
          = errors st ++ replicate (length worlds) (precondition_error n)
          ∧ retry_count (invocations (repeated n worlds) st) = retry_count st
          ∧ messages (invocations (repeated n worlds) st) = messages st
          ∧ stage_outputs n (invocations (repeated n worlds) st)
            = stage_outputs n st
          ∧ precondition_missing n (invocations (repeated n worlds) st))
    as (He & Hr & Hm & Ho & Hp).
  { revert st H.
    induction worlds as [|w worlds IH]; intros st H.
    - simpl. by rewrite app_nil_r.
    - change (invocations (repeated n (w :: worlds)) st)
        with (invocations (repeated n worlds) (node_agent n w st)).
      destruct (missing_precondition_once n w st H) as (He & Hr & Hm & Ho & Hp).
      destruct (IH _ Hp) as (He' & Hr' & Hm' & Ho' & Hp').
      rewrite He', Hr', Hm', Ho', He, Hr, Hm, Ho, <- (assoc_L (++)).
      done. }
  repeat split; try done.
  intros Hne Hrc route Hroute.
  rewrite (router_table n route _ Hroute), He, Hr.
  destruct worlds as [|w worlds]; [done|]. simpl.
  assert (nonempty (errors st ++ precondition_error n
                      :: replicate (length worlds) (precondition_error n))
          = true) as -> by (by destruct (errors st)).
  by apply Z.ltb_lt in Hrc as ->.
Qed.

Lemma missing_precondition_is_never_counted_witness :
  precondition_missing assessment_generation Sample.after_path
  ∧ errors (invocations
              (repeated assessment_generation [Sample.garbled; Sample.down])
              Sample.after_path)
    = errors Sample.after_path
      ++ replicate 2 (precondition_error assessment_generation).
Proof.
  assert (H : precondition_missing assessment_generation Sample.after_path)
    by reflexivity.
  split; [exact H|].
  exact (proj1 (missing_precondition_is_never_counted assessment_generation
                  [Sample.garbled; Sample.down] Sample.after_path H)).
Defined.

(** ** Final orchestration of a complete workflow *)

Lemma milestone_of_ok i content ms :
  OrchestratorAgent.milestone_of i content = Ok ms →
  c_id content = Some (pm_resource_id ms)
  ∧ c_title content = Some (pm_title ms)
  ∧ pm_milestone_id ms = "resource_" +:+ pretty i
  ∧ pm_required_score ms = 70
  ∧ pm_attempts_allowed ms = 3.
Proof.
  unfold OrchestratorAgent.milestone_of, mbind, result_bind, subscript,
    mret, result_ret.
  destruct (c_id content), (c_title content); try discriminate.
  by intros [= <-].
Qed.

Lemma milestone_of_raises i content e :
  OrchestratorAgent.milestone_of i content = Raise e →
  (c_id content = None ∧ e = KeyError "id")
  ∨ (is_Some (c_id content) ∧ c_title content = None ∧ e = KeyError "title").
Proof.
  unfold OrchestratorAgent.milestone_of, mbind, result_bind, subscript,
    mret, result_ret.
  destruct (c_id content), (c_title content); try discriminate;
    intros [= <-]; eauto.
Qed.

Lemma setup_progress_tracking_length (st : AgentState) tracking :
  OrchestratorAgent._setup_progress_tracking st = Ok tracking →
  length (pt_milestones tracking) = length (generated_content st).
Proof.
  unfold OrchestratorAgent._setup_progress_tracking, mbind, result_bind,
    mret, result_ret.
  destruct (for_each _ 0 (generated_content st)) as [ms|e] eqn:Ef;
    [|discriminate].
  intros [= <-]. simpl. by eapply for_each_length.
Qed.

Lemma setup_progress_tracking_raises (st : AgentState) e :
  OrchestratorAgent._setup_progress_tracking st = Raise e →
  e = KeyError "id" ∨ e = KeyError "title".
Proof.
  unfold OrchestratorAgent._setup_progress_tracking, mbind, result_bind,
    mret, result_ret.
  destruct (for_each _ 0 (generated_content st)) as [ms|e0] eqn:Ef;
    [discriminate|].
  intros [= <-].
  destruct (for_each_raises _ _ _ _ Ef) as (j & c & _ & Hf).
  apply milestone_of_raises in Hf as [[_ ->] | (_ & _ & ->)]; eauto.
Qed.

(** X8.  [_setup_progress_tracking] gives one milestone per generated
    content, in order: milestone number [i] is called ["resource_<i>"] and
    carries the id and the title of content number [i], a required score of
    70 and three attempts.  It raises exactly when some content lacks ["id"]
    or ["title"], and then with the [KeyError] of the first missing key of
    the first such content. *)
Theorem milestones_follow_the_content (st : AgentState) :
  (∀ tracking,
      OrchestratorAgent._setup_progress_tracking st = Ok tracking →
      pt_tracking_id tracking = "progress_" +:+ learner_id st
      ∧ length (pt_milestones tracking) = length (generated_content st)
      ∧ ∀ i ms,
          pt_milestones tracking !! i = Some ms →
          pm_milestone_id ms = "resource_" +:+ pretty i
          ∧ pm_required_score ms = 70
          ∧ pm_attempts_allowed ms = 3
          ∧ ∃ c, generated_content st !! i = Some c
                 ∧ c_id c = Some (pm_resource_id ms)
                 ∧ c_title c = Some (pm_title ms))
  ∧ ((∃ tracking, OrchestratorAgent._setup_progress_tracking st = Ok tracking)
     ↔ Forall (λ c, is_Some (c_id c) ∧ is_Some (c_title c))
         (generated_content st))
  ∧ (∀ e, OrchestratorAgent._setup_progress_tracking st = Raise e →
          e = KeyError "id" ∨ e = KeyError "title").
Proof.
  unfold OrchestratorAgent._setup_progress_tracking, mbind, result_bind,
    mret, result_ret.
  destruct (for_each OrchestratorAgent.milestone_of 0 (generated_content st))
    as [milestones|e0] eqn:Ef.
  - split; [|split].
    + intros tracking [= <-]. simpl. split; [done|].
      split; [by eapply for_each_length|].
      intros i ms Hms.
      destruct (for_each_lookup _ _ _ _ _ _ Ef Hms) as (c & Hc & Hf).
      apply milestone_of_ok in Hf as (? & ? & ? & ? & ?). simpl in *.
      repeat split; try done. eauto.
    + split; [|eauto]. intros _.
      apply for_each_Forall2 in Ef. apply (Forall2_left _ _ _ _ Ef).
      intros c ms [j Hj]. apply milestone_of_ok in Hj as (-> & -> & _). eauto.
    + done.
  - split; [done|]. split.
    + split; [by intros [? ?]|]. intros Hall. exfalso.
      destruct (for_each_total OrchestratorAgent.milestone_of
                  (λ c, is_Some (c_id c) ∧ is_Some (c_title c)) 0
                  (generated_content st)) as [ys Hys]; [|done|congruence].
      intros j c [[? Hi] [? Ht]].
      unfold OrchestratorAgent.milestone_of, mbind, result_bind, subscript.
      rewrite Hi, Ht. eauto.
    + intros e [= <-].
      destruct (for_each_raises _ _ _ _ Ef) as (j & c & _ & Hf).
      apply milestone_of_raises in Hf as [[_ ->] | (_ & _ & ->)]; eauto.
Qed.

(** X9.  When nothing is missing, the orchestrator has two outcomes.  Either
    it completes: the learning package and the progress tracking are stored,
    [workflow_status] is ["completed"], [should_continue] is false,
    [next_action] is ["deliver_to_learner"], exactly one message of type
    ["workflow_complete"] is appended and no error is recorded; the package
    holds the path id, the contents and the questions of the state, and its
    message and error counts are those of the state before that last
    message.  Or it appends exactly one ["Orchestration failed: ..."] error
    and changes nothing else, which happens when the elapsed time cannot be
    computed or a content lacks ["id"] or ["title"]. *)
Theorem orchestration_completes_or_records_one_error (w : World)
    (st : AgentState) :
  OrchestratorAgent.is_complete
    (OrchestratorAgent._validate_workflow_completion st) = true →
  (∃ package tracking m,
      learning_package (OrchestratorAgent.__call__ w st) = Some package
      ∧ progress_tracking (OrchestratorAgent.__call__ w st) = Some tracking
      ∧ workflow_status (OrchestratorAgent.__call__ w st) = Some "completed"
      ∧ should_continue (OrchestratorAgent.__call__ w st) = false
      ∧ next_action (OrchestratorAgent.__call__ w st) = "deliver_to_learner"
      ∧ errors (OrchestratorAgent.__call__ w st) = errors st
      ∧ messages (OrchestratorAgent.__call__ w st) = messages st ++ [m]
      ∧ m_type m = "workflow_complete"
      ∧ pk_package_id package = learning_path_id st
      ∧ pk_content_resources package = generated_content st
      ∧ pk_quiz_questions package = quiz_questions st
      ∧ pk_message_count package = length (messages st)
      ∧ pk_error_count package = length (errors st)
      ∧ length (pt_milestones tracking) = length (generated_content st))
  ∨ (∃ d,
        OrchestratorAgent.__call__ w st
        = errors_append ("Orchestration failed: " +:+ d) st
        ∧ (OrchestratorAgent._calculate_processing_time w st = Raise d
           ∨ d = KeyError "id" ∨ d = KeyError "title")).
Proof.
  intros Hc.
  unfold OrchestratorAgent.__call__, try_except, OrchestratorAgent.body,
    OrchestratorAgent.handler, mbind, M_bind, gets, modify.
  rewrite Hc. simpl.
  unfold OrchestratorAgent._create_learning_package, mbind, result_bind,
    mret, result_ret.
  destruct (OrchestratorAgent._calculate_processing_time w st) as [t|e]; simpl;
    [|right; eauto].
  destruct (OrchestratorAgent._setup_progress_tracking st) as [tracking|e]
    eqn:Et; simpl.
  - left. eexists _, tracking, _. repeat split.
    exact (setup_progress_tracking_length st tracking Et).
  - right. exists e. split; [done|]. right.
    exact (setup_progress_tracking_raises st e Et).
Qed.

Lemma orchestration_completes_or_records_one_error_witness :
  OrchestratorAgent.is_complete
    (OrchestratorAgent._validate_workflow_completion Sample.after_assessment)
  = true
  ∧ ((∃ package tracking m,
         learning_package
           (OrchestratorAgent.__call__ Sample.garbled Sample.after_assessment)
         = Some package
         ∧ progress_tracking
             (OrchestratorAgent.__call__ Sample.garbled Sample.after_assessment)
           = Some tracking
         ∧ workflow_status
             (OrchestratorAgent.__call__ Sample.garbled Sample.after_assessment)
           = Some "completed"
         ∧ should_continue
             (OrchestratorAgent.__call__ Sample.garbled Sample.after_assessment)
           = false
         ∧ next_action
             (OrchestratorAgent.__call__ Sample.garbled Sample.after_assessment)
           = "deliver_to_learner"
         ∧ errors
             (OrchestratorAgent.__call__ Sample.garbled Sample.after_assessment)
           = errors Sample.after_assessment
         ∧ messages
             (OrchestratorAgent.__call__ Sample.garbled Sample.after_assessment)
           = messages Sample.after_assessment ++ [m]
         ∧ m_type m = "workflow_complete"
         ∧ pk_package_id package = learning_path_id Sample.after_assessment
         ∧ pk_content_resources package
           = generated_content Sample.after_assessment
         ∧ pk_quiz_questions package = quiz_questions Sample.after_assessment
         ∧ pk_message_count package = length (messages Sample.after_assessment)
         ∧ pk_error_count package = length (errors Sample.after_assessment)
         ∧ length (pt_milestones tracking)
           = length (generated_content Sample.after_assessment))
     ∨ (∃ d,
           OrchestratorAgent.__call__ Sample.garbled Sample.after_assessment
           = errors_append ("Orchestration failed: " +:+ d)
               Sample.after_assessment
           ∧ (OrchestratorAgent._calculate_processing_time Sample.garbled
                Sample.after_assessment = Raise d
              ∨ d = KeyError "id" ∨ d = KeyError "title"))).
Proof.
  split; [reflexivity|].
  exact (orchestration_completes_or_records_one_error Sample.garbled
           Sample.after_assessment eq_refl).
Defined.

(** ** Reported progress *)

Lemma steps_lookup (s : string) :
  steps !! s
  = if decide (s = "profile_analysis") then Some 20
    else if decide (s = "path_planning") then Some 40
    else if decide (s = "content_generation") then Some 70
    else if decide (s = "assessment_generation") then Some 90
    else if decide (s = "orchestration_complete") then Some 100
    else None.
Proof.
  unfold steps, list_to_map. simpl.
  rewrite !lookup_insert, lookup_empty.
  repeat case_decide; subst; try done; congruence.
Qed.

(** X10.  The reported progress is always one of 0, 20, 40, 70, 90, 100.  A
    stage invoked while [workflow_step] names it never lowers the progress
    computed from the state it returns.  The progress is already 100 as soon
    as assessment generation has succeeded, before the orchestrator has run.
    For a checkpoint without a [workflow_step] the status reports the step
    ["unknown"] together with a progress of 20. *)
Theorem progress_is_bounded_and_never_falls (n : Node) (w : World)
    (st : AgentState) (values : StateValues)
    (get_state : string → result StateValues) (session_id : string) :
  _calculate_progress_percentage values
    ∈ [0; 20; 40; 70; 90; 100]
  ∧ (workflow_step st = node_step n →
     _calculate_progress_percentage (values_of st)
     ≤ _calculate_progress_percentage (values_of (node_agent n w st)))
  ∧ (generated_content st ≠ [] →
     errors (AssessmentAgent.__call__ w st) = errors st →
     _calculate_progress_percentage
       (values_of (AssessmentAgent.__call__ w st)) = 100
     ∧ workflow_status (AssessmentAgent.__call__ w st) = workflow_status st)
  ∧ (get_state session_id = Ok values → sv_workflow_step values = None →
     ∃ agent errs cont,
       get_workflow_status get_state session_id
       = Status session_id "unknown" agent 20 errs cont).
Proof.
  split; [|split; [|split]].
  - unfold _calculate_progress_percentage. rewrite steps_lookup.
    repeat case_decide; simpl; set_solver.
  - intros Hs.
    destruct (node_agent_writes n w st) as (_ & [Hw | Hw] & _).
    + unfold _calculate_progress_percentage, values_of. simpl.
      by rewrite Hw.
    + unfold _calculate_progress_percentage, values_of. simpl.
      rewrite Hs. destruct n; simpl in *; try discriminate;
        injection Hw as ->; rewrite !steps_lookup; simpl; done.
  - intros Hne He. revert He.
    unfold AssessmentAgent.__call__, try_except, AssessmentAgent.body,
      AssessmentAgent.handler, mbind, M_bind, gets, modify,
      errors_append, messages_append.
    simpl. destruct (generated_content st) as [|c cs]; [congruence|].
    destruct (for_each _ 0 (c :: cs)) as [ys|e]; simpl;
      [|by intros ?%snoc_neq].
    destruct (AssessmentAgent._create_assessment_strategy st); simpl;
      [|by intros ?%snoc_neq].
    intros _. split; [|done].
    unfold _calculate_progress_percentage. simpl. by rewrite steps_lookup.
  - intros Hg Hv. unfold get_workflow_status. rewrite Hg.
    unfold _calculate_progress_percentage. rewrite Hv. simpl.
    rewrite steps_lookup. simpl. eauto.
Qed.

(** ** Difficulty levels of the fallbacks *)

(** X11.  The fallbacks keep difficulties on the scale from 1 to 5: for a
    profile whose knowledge level is at least 0 (or absent), the fallback
    analysis recommends a difficulty between 1 and 5; and for a state whose
    [difficulty_level] is between 1 and 5, the fallback learning path has
    exactly three resources, each with every key the task generation reads,
    whose difficulties are between 1 and 5 and do not decrease along the
    path. *)
Theorem fallback_difficulties_stay_on_the_scale (w : World) (st : AgentState)
    (p : Profile) :
  0 ≤ get (p_knowledge_level p) 1 →
  1 ≤ difficulty_level st ≤ 5 →
  (∃ d, an_recommended_difficulty (ProfileAnalysisAgent.fallback_analysis p)
        = Some d ∧ 1 ≤ d ≤ 5)
  ∧ ∃ r1 r2 r3 d1 d2 d3,
      lp_resources (PathPlannerAgent._generate_fallback_path w st)
      = Some [r1; r2; r3]
      ∧ Forall complete_resource [r1; r2; r3]
      ∧ r_difficulty r1 = Some d1
      ∧ r_difficulty r2 = Some d2
      ∧ r_difficulty r3 = Some d3
      ∧ 1 ≤ d1 ∧ d1 ≤ d2 ∧ d2 ≤ d3 ∧ d3 ≤ 5.
Proof.
  intros Hk Hd. split.
  - simpl. eexists. split; [reflexivity|]. lia.
  - simpl. eexists _, _, _, _, _, _. split; [reflexivity|].
    split; [repeat constructor; simpl; eauto|].
    repeat split; lia.
Qed.

Lemma fallback_difficulties_stay_on_the_scale_witness :
  0 ≤ get (p_knowledge_level Sample.alice) 1
  ∧ 1 ≤ difficulty_level Sample.after_profile ≤ 5
  ∧ ∃ d, an_recommended_difficulty
           (ProfileAnalysisAgent.fallback_analysis Sample.alice) = Some d
         ∧ 1 ≤ d ≤ 5.
Proof.
  assert (H1 : 0 ≤ get (p_knowledge_level Sample.alice) 1)
    by (vm_compute; discriminate).
  assert (H2 : 1 ≤ difficulty_level Sample.after_profile ≤ 5)
    by (vm_compute; split; discriminate).
  split; [exact H1|]. split; [exact H2|].
  exact (proj1 (fallback_difficulties_stay_on_the_scale Sample.garbled
                  Sample.after_profile Sample.alice H1 H2)).
Defined.

(** ** The profile stage's handler and its router *)

(** X12.  When the profile stage catches an exception (the one case in
    which it increments [retry_count]), the [should_continue] flag it sets
    agrees with what its router will decide: the flag is true exactly when
    the router answers [retry], and false exactly when it answers [end]. *)
Theorem profile_handler_agrees_with_router (w : World) (st : AgentState) :
  retry_count (ProfileAnalysisAgent.__call__ w st) = retry_count st + 1 →
  (should_continue (ProfileAnalysisAgent.__call__ w st) = true
   ↔ _should_continue_from_profile (ProfileAnalysisAgent.__call__ w st)
     = v_retry)
  ∧ (should_continue (ProfileAnalysisAgent.__call__ w st) = false
     ↔ _should_continue_from_profile (ProfileAnalysisAgent.__call__ w st)
       = v_end).
Proof.
  unfold _should_continue_from_profile.
  agent_cases; intros Hrc; try lia;
    repeat match goal with
           | H : context [nonempty (errors ?s ++ _)] |- _ =>
               destruct (errors s); simpl in H
           end;
    repeat match goal with
           | H : (_ <? _) = _, H' : context [_ <? _] |- _ =>
               rewrite H in H'; simpl in H'
           end;
    try discriminate; split; split; congruence.
Qed.

Lemma profile_handler_agrees_with_router_witness :
  retry_count (ProfileAnalysisAgent.__call__ Sample.down Sample.initial)
  = retry_count Sample.initial + 1
  ∧ (should_continue (ProfileAnalysisAgent.__call__ Sample.down Sample.initial)
     = true
     ↔ _should_continue_from_profile
         (ProfileAnalysisAgent.__call__ Sample.down Sample.initial) = v_retry).
Proof.
  split; [reflexivity|].
  exact (proj1 (profile_handler_agrees_with_router Sample.down Sample.initial
                  eq_refl)).
Defined.

(** ** Who writes to the log *)

Lemma Forall_imap_intro {A B} (P : B → Prop) (l : list A) :
  ∀ f : nat → A → B, (∀ i x, P (f i x)) → Forall P (imap f l).
Proof.
  induction l as [|x l IH]; intros f Hf; simpl; constructor; [apply Hf|].
  apply IH. intros i y. apply Hf.
Qed.

Lemma senders_node (n : Node) (w : World) (st : AgentState) :
  Forall (λ m, m_sender m ∈ agent_names) (messages st) →
  Forall (λ m, m_sender m ∈ agent_names) (messages (node_agent n w st)).
Proof.
  intros H.
  destruct n; agent_cases; try done;
    apply Forall_app; (split; [done|]);
    first [ apply Forall_imap_intro; intros ??
          | apply Forall_singleton ];
    simpl; unfold agent_names;
    repeat first [apply list_elem_of_here | apply list_elem_of_further].
Qed.

Lemma remove_dups_length_le {A} `{EqDecision A} (l : list A) :
  (length (remove_dups l) ≤ length l)%nat.
Proof.
  apply submseteq_length, NoDup_submseteq; [apply NoDup_remove_dups|].
  intros x. by rewrite elem_of_remove_dups.
Qed.

(** X13.  After any sequence of stage invocations from the initial state,
    every message of the log was sent by one of the five agents; so the
    number of agents involved that the learning package and a successful
    result report is at most 5 and at most the number of messages, and the
    message count of a successful result is the length of the log. *)
Theorem senders_are_the_five_agents (w : World) (p : Profile)
    (schedule : list (Node * World)) :
  Forall (λ m, m_sender m ∈ agent_names)
    (messages (invocations schedule (_create_initial_state w p)))
  ∧ (length (OrchestratorAgent._extract_agents_involved
               (invocations schedule (_create_initial_state w p))) ≤ 5)%nat
  ∧ ∀ package tracking metadata,
      _extract_workflow_results
        (invocations schedule (_create_initial_state w p))
      = Succeeded package tracking metadata →
      (wm_agents_involved metadata ≤ 5)%nat
      ∧ (wm_agents_involved metadata ≤ wm_total_messages metadata)%nat
      ∧ wm_total_messages metadata
        = length (messages (invocations schedule (_create_initial_state w p))).
Proof.
  assert (Hall : Forall (λ m, m_sender m ∈ agent_names)
                   (messages (invocations schedule (_create_initial_state w p)))).
  { unfold invocations.
    assert (Forall (λ m, m_sender m ∈ agent_names)
              (messages (_create_initial_state w p))) as H0 by constructor.
    revert H0. generalize (_create_initial_state w p).
    induction schedule as [|[n w'] schedule IH]; intros st H0; simpl; [done|].
    apply IH. by apply senders_node. }
  assert (Hfive : ∀ l : list Message,
            Forall (λ m, m_sender m ∈ agent_names) l →
            (length (remove_dups (m_sender <$> l)) ≤ 5)%nat).
  { intros l Hl.
    change 5%nat with (length agent_names).
    apply submseteq_length, NoDup_submseteq; [apply NoDup_remove_dups|].
    intros x. rewrite elem_of_remove_dups, list_elem_of_fmap.
    intros (m & -> & Hm). by eapply Forall_forall in Hl. }
  split; [exact Hall|]. split; [by apply Hfive|].
  intros package tracking metadata. unfold _extract_workflow_results.
  destruct (nonempty _); [discriminate|]. intros [= <- <- <-]. simpl.
  split; [by apply Hfive|]. split; [|done].
  etransitivity; [apply remove_dups_length_le|]. by rewrite length_fmap.
Qed.

(** ** Multimedia enhancements *)

(** X14.  [_enhance_with_multimedia] raises, with [KeyError('title')],
    exactly when the learning style is visual, auditory or kinesthetic and
    the content has no title; for any other learning style it returns the
    content unchanged; and whenever it returns, the id, title, type and
    learner of the content are what they were. *)
Theorem enhancement_needs_a_title (content : Content) (st : AgentState) :
  (∀ e, ContentGeneratorAgent._enhance_with_multimedia content st = Raise e
        ↔ e = KeyError "title" ∧ c_title content = None
          ∧ (learning_style st = "visual" ∨ learning_style st = "auditory"
             ∨ learning_style st = "kinesthetic"))
  ∧ (learning_style st ≠ "visual" → learning_style st ≠ "auditory" →
     learning_style st ≠ "kinesthetic" →
     ContentGeneratorAgent._enhance_with_multimedia content st = Ok content)
  ∧ (∀ enhanced,
        ContentGeneratorAgent._enhance_with_multimedia content st = Ok enhanced →
        c_id enhanced = c_id content ∧ c_title enhanced = c_title content
        ∧ c_type enhanced = c_type content
        ∧ c_learner_id enhanced = c_learner_id content
        ∧ c_visual_example enhanced = c_visual_example content).
Proof.
  unfold ContentGeneratorAgent._enhance_with_multimedia, mbind, result_bind,
    mret, result_ret, subscript.
  destruct (String.eqb_spec (learning_style st) "visual") as [Ev|Ev];
    [|destruct (String.eqb_spec (learning_style st) "auditory") as [Ea|Ea];
      [|destruct (String.eqb_spec (learning_style st) "kinesthetic") as [Ek|Ek]]];
    destruct (c_title content) as [title|] eqn:Et; simpl;
    (split; [intros e; split; [intros [= <-] | intros (-> & ? & ?)];
             intuition congruence
            |split; [intros; first [done | congruence]
                    |intros enhanced [= <-]; done]]).
Qed.

(** ** The five stages without a usable model *)

Lemma profile_fallback_posts (w : World) (st : AgentState) p :
  learner_profile st = Some p →
  profile_is_empty p = false →
  llm_profile w = LLMUnparseable →
  errors (ProfileAnalysisAgent.__call__ w st) = errors st
  ∧ (∃ m, messages (ProfileAnalysisAgent.__call__ w st) = messages st ++ [m]
          ∧ m_type m = "profile_analysis_complete")
  ∧ learning_objectives (ProfileAnalysisAgent.__call__ w st) ≠ [].
Proof.
  intros Hp Hne Hl.
  unfold ProfileAnalysisAgent.__call__, try_except,
    ProfileAnalysisAgent.body, mbind, M_bind, gets, lift,
    ProfileAnalysisAgent._analyze_learning_profile.
  simpl. rewrite Hp, Hne, Hl. simpl. repeat split; eauto.
Qed.

Lemma latest_after_snoc (st st' : AgentState) (m : Message) :
  messages st' = messages st ++ [m] →
  PathPlannerAgent._get_latest_message st' (m_type m) = Some m.
Proof.
  intros H. unfold PathPlannerAgent._get_latest_message.
  by rewrite H, find_reverse_snoc, String.eqb_refl.
Qed.

Lemma path_fallback_posts (w : World) (st : AgentState) pm p :
  PathPlannerAgent._get_latest_message st "profile_analysis_complete" = Some pm →
  learner_profile st = Some p →
  llm_path w = LLMUnparseable →
  errors (PathPlannerAgent.__call__ w st) = errors st
  ∧ is_Some (learning_path_id (PathPlannerAgent.__call__ w st))
  ∧ length (current_resources (PathPlannerAgent.__call__ w st)) = 3%nat
  ∧ ∃ t0 t1 t2,
      ContentGeneratorAgent._get_content_tasks (PathPlannerAgent.__call__ w st)
      = ContentGeneratorAgent._get_content_tasks st
        ++ [TaskContent t0; TaskContent t1; TaskContent t2].
Proof.
  intros Hm Hp Hl.
  unfold PathPlannerAgent.__call__, try_except, PathPlannerAgent.body,
    mbind, M_bind, gets.
  rewrite Hm. unfold PathPlannerAgent._create_learning_path.
  rewrite Hp, Hl. simpl.
  split; [done|]. split; [eauto|]. split; [done|].
  unfold ContentGeneratorAgent._get_content_tasks. simpl.
  rewrite List.filter_app, fmap_app. simpl. eauto.
Qed.

Lemma generate_one_fallback_keys (w : World) (st : AgentState) i c y :
  llm_content w i = LLMUnparseable →
  llm_visual w i = LLMUnparseable →
  ContentGeneratorAgent.generate_one w st i c = Ok y →
  is_Some (c_id y) ∧ is_Some (c_title y).
Proof.
  intros Hc Hv.
  unfold ContentGeneratorAgent.generate_one,
    ContentGeneratorAgent._generate_content,
    ContentGeneratorAgent._generate_visual_example,
    ContentGeneratorAgent._enhance_with_multimedia, mbind, result_bind,
    mret, result_ret.
  destruct c; try discriminate. rewrite Hc, Hv. simpl.
  destruct (String.eqb (learning_style st) "visual"); simpl;
    [intros [= <-]; simpl; eauto|].
  destruct (String.eqb (learning_style st) "auditory"); simpl;
    [intros [= <-]; simpl; eauto|].
  destruct (String.eqb (learning_style st) "kinesthetic"); simpl;
    intros [= <-]; simpl; eauto.
Qed.

Lemma content_fallback_generates (w : World) (st : AgentState) :
  ContentGeneratorAgent._get_content_tasks st ≠ [] →
  Forall is_task (ContentGeneratorAgent._get_content_tasks st) →
  (∀ i, llm_content w i = LLMUnparseable) →
  (∀ i, llm_visual w i = LLMUnparseable) →
  errors (ContentGeneratorAgent.__call__ w st) = errors st
  ∧ length (generated_content (ContentGeneratorAgent.__call__ w st))
    = length (ContentGeneratorAgent._get_content_tasks st)
  ∧ Forall (λ c, is_Some (c_id c) ∧ is_Some (c_title c))
      (generated_content (ContentGeneratorAgent.__call__ w st)).
Proof.
  intros Hne Hall Hc Hv.
  unfold ContentGeneratorAgent.__call__, try_except,
    ContentGeneratorAgent.body, mbind, M_bind, gets.
  simpl.
  destruct (for_each_total (ContentGeneratorAgent.generate_one w st) is_task
              0 (ContentGeneratorAgent._get_content_tasks st)) as [ys Hys];
    [by intros; apply generate_one_falls_back|exact Hall|].
  pose proof (for_each_length _ _ _ _ Hys) as Hlen.
  pose proof (for_each_Forall2 _ _ _ _ Hys) as H2.
  destruct (ContentGeneratorAgent._get_content_tasks st) as [|t ts] eqn:Et;
    [congruence|].
  rewrite Hys. simpl. split; [done|]. split; [done|].
  apply (Forall2_right _ _ _ _ H2).
  intros x y [j Hj]. by eapply generate_one_fallback_keys.
Qed.

Lemma assessment_fallback_generates (w : World) (st : AgentState) p :
  generated_content st ≠ [] →
  learner_profile st = Some p →
  (∀ i, llm_quiz w i = LLMUnparseable) →
  errors (AssessmentAgent.__call__ w st) = errors st
  ∧ length (quiz_questions (AssessmentAgent.__call__ w st))
    = length (generated_content st).
Proof.
  intros Hne Hp Hq.
  assert (∀ j x, AssessmentAgent._generate_quiz_questions w j x st
                 = Ok (AssessmentAgent._generate_fallback_questions w j x st))
    as Hok.
  { intros j x. unfold AssessmentAgent._generate_quiz_questions.
    by rewrite (Hq j). }
  assert (∀ l i, ∃ ys,
            for_each (λ i content,
                        AssessmentAgent._generate_quiz_questions w i content st)
              i l = Ok ys
            ∧ length (concat ys) = length l) as Hfor.
  { induction l as [|x l IH]; intros i; simpl; [eauto|].
    rewrite Hok. destruct (IH (S i)) as (ys & -> & Hlen).
    eexists. split; [reflexivity|]. simpl. by rewrite Hlen. }
  unfold AssessmentAgent.__call__, try_except, AssessmentAgent.body,
    mbind, M_bind, gets.
  simpl. destruct (Hfor (generated_content st) 0%nat) as (ys & Hys & Hlen).
  destruct (generated_content st) as [|c cs] eqn:Ec; [congruence|].
  rewrite Hys. unfold AssessmentAgent._create_assessment_strategy.
  rewrite Hp. simpl. by split.
Qed.

Lemma orchestration_completes (w : World) (st : AgentState) :
  OrchestratorAgent.is_complete
    (OrchestratorAgent._validate_workflow_completion st) = true →
  (∃ t, OrchestratorAgent._calculate_processing_time w st = Ok t) →
  Forall (λ c, is_Some (c_id c) ∧ is_Some (c_title c)) (generated_content st) →
  errors (OrchestratorAgent.__call__ w st) = errors st
  ∧ workflow_status (OrchestratorAgent.__call__ w st) = Some "completed"
  ∧ should_continue (OrchestratorAgent.__call__ w st) = false
  ∧ next_action (OrchestratorAgent.__call__ w st) = "deliver_to_learner"
  ∧ ∃ package,
      learning_package (OrchestratorAgent.__call__ w st) = Some package
      ∧ pk_content_resources package = generated_content st
      ∧ pk_quiz_questions package = quiz_questions st.
Proof.
  intros Hc [t Ht] Hall.
  unfold OrchestratorAgent.__call__, try_except, OrchestratorAgent.body,
    mbind, M_bind, gets, modify.
  rewrite Hc. simpl.
  unfold OrchestratorAgent._create_learning_package, mbind, result_bind,
    mret, result_ret.
  rewrite Ht. simpl.
  destruct (for_each_total OrchestratorAgent.milestone_of
              (λ c, is_Some (c_id c) ∧ is_Some (c_title c)) 0
              (generated_content st)) as [ms Hms]; [|done|].
  { intros j c [[? Hi] [? Hti]].
    unfold OrchestratorAgent.milestone_of, mbind, result_bind, subscript.
    rewrite Hi, Hti. eauto. }
  unfold OrchestratorAgent._setup_progress_tracking, mbind, result_bind,
    mret, result_ret.
  rewrite Hms. simpl. repeat split. eauto.
Qed.

Lemma outputs_kept (n m : Node) (w : World) (st : AgentState) :
  m ≠ n → stage_outputs m (node_agent n w st) = stage_outputs m st.
Proof. intros H. by apply (proj1 (node_agent_writes n w st)). Qed.

Lemma retry_count_kept (n : Node) (w : World) (st : AgentState) :
  errors (node_agent n w st) = errors st →
  retry_count (node_agent n w st) = retry_count st.
Proof.
  intros He.
  destruct (eff_retry_count _ _ (node_agent_effect n w st))
    as [H | [_ [d Hd]]]; [done|].
  rewrite He in Hd. symmetry in Hd. by apply snoc_neq in Hd.
Qed.

Lemma continue_target (n : Node) (st : AgentState) :
  errors st = [] → required_output n st = true →
  next_target n st
  = match n with
    | profile_analysis => To path_planning
    | path_planning => To content_generation
    | content_generation => To assessment_generation
    | assessment_generation => To orchestration
    | orchestration => END
    end.
Proof.
  intros He Ho.
  destruct n; unfold next_target; simpl in *; [..|reflexivity];
    unfold _should_continue_from_profile, _should_continue_from_path,
      _should_continue_from_content, _should_continue_from_assessment;
    by rewrite He, Ho.
Qed.

Lemma nonempty_length {A} (l : list A) (k : nat) :
  length l = S k → nonempty l = true.
Proof. by destruct l. Qed.

(** X15.  The workflow does not depend on a usable model: for every
    non-empty learner profile, when every reply of the model is
    un-parseable (and the elapsed time can be computed), the five stages
    invoked one after the other complete the workflow from the initial
    state.  No error is recorded and [retry_count] stays 0; three resources
    are planned, three contents generated and three quiz questions written;
    the learning package holds them, [workflow_status] is ["completed"],
    [should_continue] is false and the extracted result is a success.  After
    each of the first four stages its router sends the graph on to the next
    stage, and after the orchestrator the graph ends. *)
Theorem fallbacks_complete_the_workflow (w0 w1 w2 w3 w4 w5 : World)
    (p : Profile) :
  profile_is_empty p = false →
  llm_profile w1 = LLMUnparseable →
  llm_path w2 = LLMUnparseable →
  (∀ i, llm_content w3 i = LLMUnparseable) →
  (∀ i, llm_visual w3 i = LLMUnparseable) →
  (∀ i, llm_quiz w4 i = LLMUnparseable) →
  (∀ ts, ∃ t, elapsed_since w5 ts = Ok t) →
  let start := _create_initial_state w0 p in
  let final := invocations (pipeline w1 w2 w3 w4 w5) start in
  errors final = []
  ∧ retry_count final = 0
  ∧ workflow_status final = Some "completed"
  ∧ should_continue final = false
  ∧ next_action final = "deliver_to_learner"
  ∧ length (current_resources final) = 3%nat
  ∧ length (generated_content final) = 3%nat
  ∧ length (quiz_questions final) = 3%nat
  ∧ (∃ package,
        learning_package final = Some package
        ∧ length (pk_content_resources package) = 3%nat
        ∧ length (pk_quiz_questions package) = 3%nat)
  ∧ success (_extract_workflow_results final) = true
  ∧ next_target profile_analysis
      (invocations (take 1 (pipeline w1 w2 w3 w4 w5)) start)
    = To path_planning
  ∧ next_target path_planning
      (invocations (take 2 (pipeline w1 w2 w3 w4 w5)) start)
    = To content_generation
  ∧ next_target content_generation
      (invocations (take 3 (pipeline w1 w2 w3 w4 w5)) start)
    = To assessment_generation
  ∧ next_target assessment_generation
      (invocations (take 4 (pipeline w1 w2 w3 w4 w5)) start)
    = To orchestration
  ∧ next_target orchestration final = END.
Proof.
  intros Hp H1 H2 H3c H3v H4 H5 start final.
  (* the profile stage *)
  remember (ProfileAnalysisAgent.__call__ w1 start) as s1 eqn:E1.
  assert (F1 : errors s1 = [] ∧ retry_count s1 = 0
               ∧ learner_profile s1 = Some p
               ∧ learning_objectives s1 ≠ []
               ∧ ContentGeneratorAgent._get_content_tasks s1 = []
               ∧ ∃ m, PathPlannerAgent._get_latest_message s1
                        "profile_analysis_complete" = Some m).
  { destruct (profile_fallback_posts w1 start p eq_refl Hp H1)
      as (He & (m & Hm & Hty) & Ho).
    subst s1. split; [exact He|].
    split; [exact (retry_count_kept profile_analysis w1 start He)|].
    split; [exact (eff_learner_profile _ _
                     (node_agent_effect profile_analysis w1 start))|].
    split; [exact Ho|].
    split; [exact (content_tasks_kept profile_analysis w1 start
                     ltac:(discriminate))|].
    exists m. rewrite <- Hty. by apply (latest_after_snoc start). }
  destruct F1 as (He1 & Hr1 & Hp1 & Ho1 & Ht1 & m & Hm1).
  (* path planning *)
  remember (PathPlannerAgent.__call__ w2 s1) as s2 eqn:E2.
  assert (F2 : errors s2 = [] ∧ retry_count s2 = 0
               ∧ learner_profile s2 = Some p
               ∧ learning_objectives s2 ≠ []
               ∧ is_Some (learning_path_id s2)
               ∧ length (current_resources s2) = 3%nat
               ∧ (∃ t0 t1 t2,
                     ContentGeneratorAgent._get_content_tasks s2
                     = [TaskContent t0; TaskContent t1; TaskContent t2])).
  { destruct (path_fallback_posts w2 s1 m p Hm1 Hp1 H2)
      as (He & Hid & Hlen & t0 & t1 & t2 & Ht).
    pose proof (outputs_kept path_planning profile_analysis w2 s1
                  ltac:(discriminate)) as Hk.
    simpl in Hk. injection Hk as Hobj _ _.
    subst s2. split; [exact (eq_trans He He1)|].
    split; [exact (eq_trans (retry_count_kept path_planning w2 s1 He) Hr1)|].
    split; [exact (eq_trans (eff_learner_profile _ _
                               (node_agent_effect path_planning w2 s1)) Hp1)|].
    split; [by rewrite Hobj|].
    split; [exact Hid|]. split; [exact Hlen|].
    exists t0, t1, t2. by rewrite Ht, Ht1. }
  destruct F2 as (He2 & Hr2 & Hp2 & Ho2 & Hid2 & Hres2 & t0 & t1 & t2 & Ht2).
  (* content generation *)
  remember (ContentGeneratorAgent.__call__ w3 s2) as s3 eqn:E3.
  assert (F3 : errors s3 = [] ∧ retry_count s3 = 0
               ∧ learner_profile s3 = Some p
               ∧ learning_objectives s3 ≠ []
               ∧ is_Some (learning_path_id s3)
               ∧ length (current_resources s3) = 3%nat
               ∧ length (generated_content s3) = 3%nat
               ∧ Forall (λ c, is_Some (c_id c) ∧ is_Some (c_title c))
                   (generated_content s3)).
  { destruct (content_fallback_generates w3 s2) as (He & Hlen & Hkeys);
      [by rewrite Ht2|rewrite Ht2; by repeat constructor|done|done|].
    pose proof (outputs_kept content_generation profile_analysis w3 s2
                  ltac:(discriminate)) as Hk.
    simpl in Hk. injection Hk as Hobj _ _.
    pose proof (outputs_kept content_generation path_planning w3 s2
                  ltac:(discriminate)) as Hk'.
    simpl in Hk'. injection Hk' as Hres Hid.
    subst s3. split; [exact (eq_trans He He2)|].
    split; [exact (eq_trans (retry_count_kept content_generation w3 s2 He) Hr2)|].
    split; [exact (eq_trans (eff_learner_profile _ _
                               (node_agent_effect content_generation w3 s2))
                     Hp2)|].
    rewrite Hobj, Hres, Hid, Hlen, Ht2. done. }
  destruct F3 as (He3 & Hr3 & Hp3 & Ho3 & Hid3 & Hres3 & Hgen3 & Hkeys3).
  (* assessment generation *)
  remember (AssessmentAgent.__call__ w4 s3) as s4 eqn:E4.
  assert (F4 : errors s4 = [] ∧ retry_count s4 = 0
               ∧ learner_profile s4 = Some p
               ∧ learning_objectives s4 ≠ []
               ∧ is_Some (learning_path_id s4)
               ∧ length (current_resources s4) = 3%nat
               ∧ generated_content s4 = generated_content s3
               ∧ length (quiz_questions s4) = 3%nat).
  { destruct (assessment_fallback_generates w4 s3 p) as (He & Hlen);
      [by destruct (generated_content s3)|done|done|].
    pose proof (outputs_kept assessment_generation profile_analysis w4 s3
                  ltac:(discriminate)) as Hk.
    simpl in Hk. injection Hk as Hobj _ _.
    pose proof (outputs_kept assessment_generation path_planning w4 s3
                  ltac:(discriminate)) as Hk'.
    simpl in Hk'. injection Hk' as Hres Hid.
    pose proof (outputs_kept assessment_generation content_generation w4 s3
                  ltac:(discriminate)) as Hk''.
    simpl in Hk''. injection Hk'' as Hgen.
    subst s4. split; [exact (eq_trans He He3)|].
    split; [exact (eq_trans (retry_count_kept assessment_generation w4 s3 He)
                     Hr3)|].
    split; [exact (eq_trans (eff_learner_profile _ _
                               (node_agent_effect assessment_generation w4 s3))
                     Hp3)|].
    rewrite Hobj, Hres, Hid, Hgen, Hlen, Hgen3. done. }
  destruct F4 as (He4 & Hr4 & Hp4 & Ho4 & Hid4 & Hres4 & Hgen4 & Hquiz4).
  (* final orchestration *)
  remember (OrchestratorAgent.__call__ w5 s4) as s5 eqn:E5.
  assert (Hcomplete : OrchestratorAgent.is_complete
                        (OrchestratorAgent._validate_workflow_completion s4)
                      = true).
  { unfold OrchestratorAgent._validate_workflow_completion,
      OrchestratorAgent.required_components.
    destruct Hid4 as [pid Hpid]. rewrite Hp4, Hpid, Hgen4.
    destruct (learning_objectives s4), (generated_content s3),
      (quiz_questions s4); simpl in *; done. }
  assert (Htime : ∃ t, OrchestratorAgent._calculate_processing_time w5 s4 = Ok t).
  { unfold OrchestratorAgent._calculate_processing_time.
    destruct (messages s4); eauto. }
  assert (F5 : errors s5 = [] ∧ retry_count s5 = 0
               ∧ workflow_status s5 = Some "completed"
               ∧ should_continue s5 = false
               ∧ next_action s5 = "deliver_to_learner"
               ∧ length (current_resources s5) = 3%nat
               ∧ length (generated_content s5) = 3%nat
               ∧ length (quiz_questions s5) = 3%nat
               ∧ ∃ package,
                   learning_package s5 = Some package
                   ∧ length (pk_content_resources package) = 3%nat
                   ∧ length (pk_quiz_questions package) = 3%nat).
  { destruct (orchestration_completes w5 s4 Hcomplete Htime)
      as (He & Hst & Hsc & Hna & package & Hpk & Hpc & Hpq);
      [by rewrite Hgen4|].
    pose proof (outputs_kept orchestration path_planning w5 s4
                  ltac:(discriminate)) as Hk'.
    simpl in Hk'. injection Hk' as Hres _.
    pose proof (outputs_kept orchestration content_generation w5 s4
                  ltac:(discriminate)) as Hk''.
    simpl in Hk''. injection Hk'' as Hgen.
    pose proof (outputs_kept orchestration assessment_generation w5 s4
                  ltac:(discriminate)) as Hk3.
    simpl in Hk3. injection Hk3 as Hquiz _.
    subst s5. split; [exact (eq_trans He He4)|].
    split; [exact (eq_trans (retry_count_kept orchestration w5 s4 He) Hr4)|].
    rewrite Hst, Hsc, Hna, Hres, Hgen, Hquiz, Hgen4, Hres4, Hgen3, Hquiz4.
    repeat split. exists package. by rewrite Hpk, Hpc, Hpq, Hgen4, Hgen3, Hquiz4. }
  destruct F5 as (He5 & Hr5 & Hst5 & Hsc5 & Hna5 & Hres5 & Hgen5 & Hquiz5 & Hpk5).
  assert (Ef : final = s5) by (subst; reflexivity).
  assert (E1' : invocations (take 1 (pipeline w1 w2 w3 w4 w5)) start = s1)
    by (subst; reflexivity).
  assert (E2' : invocations (take 2 (pipeline w1 w2 w3 w4 w5)) start = s2)
    by (subst; reflexivity).
  assert (E3' : invocations (take 3 (pipeline w1 w2 w3 w4 w5)) start = s3)
    by (subst; reflexivity).
  assert (E4' : invocations (take 4 (pipeline w1 w2 w3 w4 w5)) start = s4)
    by (subst; reflexivity).
  rewrite Ef, E1', E2', E3', E4'.
  split; [exact He5|]. split; [exact Hr5|]. split; [exact Hst5|].
  split; [exact Hsc5|]. split; [exact Hna5|]. split; [exact Hres5|].
  split; [exact Hgen5|]. split; [exact Hquiz5|]. split; [exact Hpk5|].
  split; [unfold _extract_workflow_results; by rewrite He5|].
  split; [apply (continue_target profile_analysis s1 He1); simpl;
          by destruct (learning_objectives s1)|].
  split; [apply (continue_target path_planning s2 He2); simpl;
          by eapply nonempty_length|].
  split; [apply (continue_target content_generation s3 He3); simpl;
          by eapply nonempty_length|].
  split; [apply (continue_target assessment_generation s4 He4); simpl;
          by eapply nonempty_length|].
  reflexivity.
Qed.

Lemma fallbacks_complete_the_workflow_witness :
  profile_is_empty Sample.alice = false
  ∧ errors (invocations
              (pipeline Sample.garbled Sample.garbled Sample.garbled
                 Sample.garbled Sample.garbled)
              (_create_initial_state Sample.garbled Sample.alice)) = []
  ∧ success
      (_extract_workflow_results
         (invocations
            (pipeline Sample.garbled Sample.garbled Sample.garbled
               Sample.garbled Sample.garbled)
            (_create_initial_state Sample.garbled Sample.alice))) = true.
Proof.
  split; [reflexivity|].
  destruct (fallbacks_complete_the_workflow Sample.garbled Sample.garbled
              Sample.garbled Sample.garbled Sample.garbled Sample.garbled
              Sample.alice eq_refl eq_refl eq_refl (λ _, eq_refl)
              (λ _, eq_refl) (λ _, eq_refl)
              (λ _, ex_intro _ "1.5" eq_refl))
    as (He & _ & _ & _ & _ & _ & _ & _ & _ & Hs & _).
  split; [exact He|exact Hs].
Defined.

(** ** Validation of the workflow *)

(** X16.  [_validate_workflow_completion] declares the workflow complete
    exactly when nothing is missing, that is when the learner profile and the
    learning path id are set and the objectives, the generated content and the
    quiz questions are non-empty; and each of the five component names is in
    the list of missing components exactly when that component is absent. *)
Theorem validation_lists_what_is_missing (st : AgentState) :
  (OrchestratorAgent.is_complete
     (OrchestratorAgent._validate_workflow_completion st) = true
   ↔ OrchestratorAgent.missing_components
       (OrchestratorAgent._validate_workflow_completion st) = [])
  ∧ (OrchestratorAgent.is_complete
       (OrchestratorAgent._validate_workflow_completion st) = true
     ↔ is_Some (learner_profile st) ∧ learning_objectives st ≠ []
       ∧ generated_content st ≠ [] ∧ quiz_questions st ≠ []
       ∧ is_Some (learning_path_id st))
  ∧ ("learner_profile"
       ∈ OrchestratorAgent.missing_components
           (OrchestratorAgent._validate_workflow_completion st)
     ↔ learner_profile st = None)
  ∧ ("learning_objectives"
       ∈ OrchestratorAgent.missing_components
           (OrchestratorAgent._validate_workflow_completion st)
     ↔ learning_objectives st = [])
  ∧ ("generated_content"
       ∈ OrchestratorAgent.missing_components
           (OrchestratorAgent._validate_workflow_completion st)
     ↔ generated_content st = [])
  ∧ ("quiz_questions"
       ∈ OrchestratorAgent.missing_components
           (OrchestratorAgent._validate_workflow_completion st)
     ↔ quiz_questions st = [])
  ∧ ("learning_path_id"
       ∈ OrchestratorAgent.missing_components
           (OrchestratorAgent._validate_workflow_completion st)
     ↔ learning_path_id st = None).
Proof.
  unfold OrchestratorAgent._validate_workflow_completion,
    OrchestratorAgent.required_components.
  destruct (learner_profile st), (learning_objectives st),
    (generated_content st), (quiz_questions st), (learning_path_id st);
    simpl; repeat split;
    try (intros; first [done | discriminate | by eauto]);
    try (intros H; exfalso; first [by destruct H as (? & ? & ? & ? & ?)
                                  | by destruct H as ([? ?] & _)
                                  | by destruct H as (_ & _ & _ & _ & [? ?])]);
    try (rewrite !list_elem_of_In; simpl; intuition congruence).
Qed.

(** ** The fallback quiz *)

(** X17.  When the model's quiz replies cannot be parsed, the assessment
    stage still writes an answerable quiz: it records no error and stores
    exactly one question per generated content, in the order of the
    contents; each question carries the id of its content as [resource_id]
    and the learner's id, has four options, and its correct answer is the
    first of them, namely the title of the content (or ["Main concept"] for
    a content without a title). *)
Theorem fallback_quiz_is_answerable (w : World) (st : AgentState)
    (p : Profile) :
  generated_content st ≠ [] →
  learner_profile st = Some p →
  (∀ i, llm_quiz w i = LLMUnparseable) →
  errors (AssessmentAgent.__call__ w st) = errors st
  ∧ Forall2
      (λ c q,
         q_resource_id q = c_id c
         ∧ q_learner_id q = Some (learner_id st)
         ∧ ∃ options answer,
             q_options q = Some options
             ∧ q_correct_answer q = Some answer
             ∧ length options = 4%nat
             ∧ options !! 0%nat = Some answer
             ∧ answer = get (c_title c) "Main concept")
      (generated_content st)
      (quiz_questions (AssessmentAgent.__call__ w st)).
Proof.
  intros Hne Hp Hq.
  assert (∀ l i, ∃ ys,
            for_each (λ i content,
                        AssessmentAgent._generate_quiz_questions w i content st)
              i l = Ok ys
            ∧ Forall2
                (λ c q,
                   q_resource_id q = c_id c
                   ∧ q_learner_id q = Some (learner_id st)
                   ∧ ∃ options answer,
                       q_options q = Some options
                       ∧ q_correct_answer q = Some answer
                       ∧ length options = 4%nat
                       ∧ options !! 0%nat = Some answer
                       ∧ answer = get (c_title c) "Main concept")
                l (concat ys)) as Hfor.
  { induction l as [|x l IH]; intros i; simpl; [by eexists|].
    unfold AssessmentAgent._generate_quiz_questions at 1. rewrite (Hq i).
    destruct (IH (S i)) as (ys & -> & Hall).
    eexists. split; [reflexivity|]. simpl. constructor; [|done].
    simpl. repeat split. eexists _, _. by repeat split. }
  unfold AssessmentAgent.__call__, try_except, AssessmentAgent.body,
    mbind, M_bind, gets.
  simpl. destruct (Hfor (generated_content st) 0%nat) as (ys & Hys & Hall).
  destruct (generated_content st) as [|c cs] eqn:Ec; [congruence|].
  rewrite Hys. unfold AssessmentAgent._create_assessment_strategy.
  rewrite Hp. simpl. by split.
Qed.

Lemma fallback_quiz_is_answerable_witness :
  generated_content Sample.after_content ≠ []
  ∧ learner_profile Sample.after_content = Some Sample.alice
  ∧ errors (AssessmentAgent.__call__ Sample.garbled Sample.after_content)
    = errors Sample.after_content.
Proof.
  assert (H1 : generated_content Sample.after_content ≠ [])
    by (vm_compute; discriminate).
  split; [exact H1|]. split; [reflexivity|].
  exact (proj1 (fallback_quiz_is_answerable Sample.garbled
                  Sample.after_content Sample.alice H1 eq_refl
                  (λ _, eq_refl))).
Defined.

(** ** A parsed analysis that lacks a key *)

(** X18.  When the profile stage gets a parsed analysis, it succeeds
    exactly when the analysis has the three keys it reads.  Otherwise it
    records the [KeyError] of the first missing key (in the order
    ["learning_objectives"], ["recommended_difficulty"], ["focus_areas"]),
    increments [retry_count], posts no message, and has already stored the
    values of the keys that come before the missing one. *)
Theorem parsed_analysis_needs_three_keys (w : World) (st : AgentState)
    (p : Profile) (a : Analysis) :
  learner_profile st = Some p →
  profile_is_empty p = false →
  llm_profile w = LLMJson a →
  (errors (ProfileAnalysisAgent.__call__ w st) = errors st
   ↔ is_Some (an_learning_objectives a)
     ∧ is_Some (an_recommended_difficulty a)
     ∧ is_Some (an_focus_areas a))
  ∧ (an_learning_objectives a = None →
     errors (ProfileAnalysisAgent.__call__ w st)
     = errors st ++ ["Profile analysis failed: 'learning_objectives'"]
     ∧ stage_outputs profile_analysis (ProfileAnalysisAgent.__call__ w st)
       = stage_outputs profile_analysis st)
  ∧ (∀ objectives,
        an_learning_objectives a = Some objectives →
        an_recommended_difficulty a = None →
        errors (ProfileAnalysisAgent.__call__ w st)
        = errors st ++ ["Profile analysis failed: 'recommended_difficulty'"]
        ∧ stage_outputs profile_analysis (ProfileAnalysisAgent.__call__ w st)
          = ProfileOutputs objectives (difficulty_level st) (weak_areas st))
  ∧ (∀ objectives difficulty,
        an_learning_objectives a = Some objectives →
        an_recommended_difficulty a = Some difficulty →
        an_focus_areas a = None →
        errors (ProfileAnalysisAgent.__call__ w st)
        = errors st ++ ["Profile analysis failed: 'focus_areas'"]
        ∧ stage_outputs profile_analysis (ProfileAnalysisAgent.__call__ w st)
          = ProfileOutputs objectives difficulty (weak_areas st))
  ∧ (errors (ProfileAnalysisAgent.__call__ w st) ≠ errors st →
     retry_count (ProfileAnalysisAgent.__call__ w st) = retry_count st + 1
     ∧ messages (ProfileAnalysisAgent.__call__ w st) = messages st).
Proof.
  intros Hp Hne Hl.
  unfold ProfileAnalysisAgent.__call__, try_except,
    ProfileAnalysisAgent.body, ProfileAnalysisAgent.handler,
    ProfileAnalysisAgent.complete, mbind, M_bind, gets, modify, lift,
    ProfileAnalysisAgent._analyze_learning_profile, errors_append,
    messages_append, subscript.
  simpl. rewrite Hp, Hne, Hl. simpl.
  destruct (an_learning_objectives a) as [lo|],
    (an_recommended_difficulty a) as [rd|], (an_focus_areas a) as [fa|];
    simpl;
    repeat match goal with
           | |- context [if ?b then _ else _] => destruct b
           end;
    simpl;
    (split; [split; [intros He; first [by eauto | by apply snoc_neq in He]
                    |intros (H1 & H2 & H3);
                     first [done | by destruct H1 | by destruct H2
                           | by destruct H3]]
            |repeat split; intros; simplify_eq; try done]).
Qed.

Lemma parsed_analysis_needs_three_keys_witness :
  learner_profile Sample.initial = Some Sample.alice
  ∧ profile_is_empty Sample.alice = false
  ∧ errors (ProfileAnalysisAgent.__call__ Sample.truncated Sample.initial)
    ≠ errors Sample.initial
  ∧ retry_count (ProfileAnalysisAgent.__call__ Sample.truncated Sample.initial)
    = retry_count Sample.initial + 1.
Proof.
  assert (Hne : errors (ProfileAnalysisAgent.__call__ Sample.truncated
                          Sample.initial) ≠ errors Sample.initial)
    by (vm_compute; discriminate).
  split; [reflexivity|]. split; [reflexivity|]. split; [exact Hne|].
  destruct (parsed_analysis_needs_three_keys Sample.truncated Sample.initial
              Sample.alice _ eq_refl eq_refl eq_refl)
    as (_ & _ & _ & _ & H).
  exact (proj1 (H Hne)).
Defined.

(** ** When a run is given up *)


